(** * python-frank-energie: the price model and the response handling

    A shallow embedding of [python_frank_energie/models.py] (Price,
    PriceData, MarketPrices, Authentication, Invoices, User, MonthSummary)
    and of the client of [python_frank_energie/frank_energie.py] (its
    session state, its requests and its response handling), with the
    properties of the specification, and further properties of the code,
    stated on it.

    Conventions of the embedding:
    - a Python [float] is a binary64 number, Rocq's primitive [float];
      [+], [-], [/], [<] are the IEEE operations in both; a number of a
      decoded document is a float (an integer literal is taken at its float
      value);
    - an exception is a value of [exn]; a call that may raise returns a
      [result];
    - a decoded JSON document is a value of [json]; a Python [dict] with
      string keys is an association list read by first match;
    - the builtins [round] and [sum] and dateutil's [parser.parse] are not
      code of the package: they are Section variables of the methods that
      call them, and reference models of them ([py_round], [py_sum],
      [iso_parse]) are given for evaluation;
    - [datetime.now(timezone.utc)] is the argument [clock], the reading of
      the wall clock in microseconds since the epoch; one call of a
      property reads one value of the clock. *)

From Stdlib Require Import ZArith List String Ascii Bool Lia.
From Stdlib Require Import Floats Uint63.
Import ListNotations.

Local Open Scope string_scope.
Local Open Scope list_scope.
Local Open Scope Z_scope.

(** ** JSON documents, exceptions and results *)

Set Warnings "-register-all".

Inductive json : Type :=
| JNull
| JBool (b : bool)
| JNum (f : float)
| JStr (s : string)
| JList (l : list json)
| JObj (members : list (string * json)).

(** The exceptions the modelled code raises: those of
    [python_frank_energie.exceptions] that it uses, and Python's own. *)
Inductive exn : Type :=
| AuthException (args : list json)
| RequestException (args : list json)
| AuthRequiredException
| KeyError (key : string)
| IndexError
| TypeError
| AttributeError
| ValueError
| ZeroDivisionError
| ParserError.

(** The class name of an exception, as [type(e).__name__] gives it. *)
Definition exn_name (e : exn) : string :=
  match e with
  | AuthException _ => "AuthException"
  | RequestException _ => "RequestException"
  | AuthRequiredException => "AuthRequiredException"
  | KeyError _ => "KeyError"
  | IndexError => "IndexError"
  | TypeError => "TypeError"
  | AttributeError => "AttributeError"
  | ValueError => "ValueError"
  | ZeroDivisionError => "ZeroDivisionError"
  | ParserError => "ParserError"
  end.

Inductive result (A : Type) : Type :=
| Ok (a : A)
| Raise (e : exn).
Arguments Ok {A} a.
Arguments Raise {A} e.

Definition bind {A B : Type} (r : result A) (k : A -> result B) : result B :=
  match r with
  | Ok a => k a
  | Raise e => Raise e
  end.

Declare Scope py_scope.
Delimit Scope py_scope with py.
Notation "x <- r ;; k" := (bind r (fun x => k))
  (at level 61, r at next level, right associativity) : py_scope.
Local Open Scope py_scope.

(** [raises r name]: the call fails with an exception of class [name]. *)
Definition raises {A : Type} (r : result A) (name : string) : Prop :=
  exists e, r = Raise e /\ exn_name e = name.

(** [[f x for x in l]] where [f] may raise: the first failure ends the
    comprehension. *)
Fixpoint map_result {A B : Type} (f : A -> result B) (l : list A)
  : result (list B) :=
  match l with
  | [] => Ok []
  | x :: rest =>
      y <- f x ;;
      ys <- map_result f rest ;;
      Ok (y :: ys)
  end.

(** ** JSON values as Python objects *)

Module Json.

(** The value stored under [key], if any. *)
Fixpoint lookup (key : string) (d : list (string * json)) : option json :=
  match d with
  | [] => None
  | (k, v) :: rest => if String.eqb k key then Some v else lookup key rest
  end.

(** Truth value of an object, as [if x:] and [not x] take it. *)
Definition truthy (v : json) : bool :=
  match v with
  | JNull => false
  | JBool b => b
  | JNum f => negb (PrimFloat.eqb f 0%float)
  | JStr s => negb (String.eqb s "")
  | JList l => match l with [] => false | _ => true end
  | JObj m => match m with [] => false | _ => true end
  end.

(** [v[key]] for a string key. *)
Definition subscript (v : json) (key : string) : result json :=
  match v with
  | JObj m =>
      match lookup key m with
      | Some x => Ok x
      | None => Raise (KeyError key)
      end
  | _ => Raise TypeError
  end.

(** [v[0]]. *)
Definition first (v : json) : result json :=
  match v with
  | JList (x :: _) => Ok x
  | JList [] => Raise IndexError
  | JStr (String c _) => Ok (JStr (String c EmptyString))
  | JStr EmptyString => Raise IndexError
  | JObj _ => Raise (KeyError "0")
  | _ => Raise TypeError
  end.

Fixpoint chars (s : string) : list json :=
  match s with
  | EmptyString => []
  | String c rest => JStr (String c EmptyString) :: chars rest
  end.

(** The items [for x in v] visits. *)
Definition iter (v : json) : result (list json) :=
  match v with
  | JList l => Ok l
  | JStr s => Ok (chars s)
  | JObj m => Ok (map (fun kv => JStr (fst kv)) m)
  | _ => Raise TypeError
  end.

(** [v.startswith(p)]; only a [str] has the method. *)
Definition startswith (v : json) (p : string) : result bool :=
  match v with
  | JStr s => Ok (String.prefix p s)
  | _ => Raise AttributeError
  end.

(** [v.get(key)]: Python's [None] (JSON [null]) when the key is absent;
    only a [dict] has the method. *)
Definition get (v : json) (key : string) : result json :=
  match v with
  | JObj m =>
      match lookup key m with
      | Some x => Ok x
      | None => Ok JNull
      end
  | _ => Raise AttributeError
  end.

(** [v == s] for a string literal [s]. *)
Definition eq_str (v : json) (s : string) : bool :=
  match v with
  | JStr t => String.eqb t s
  | _ => false
  end.

(** [v.get(key, default)]: the default only when the key is absent. *)
Definition get_default (v : json) (key : string) (default : json)
  : result json :=
  match v with
  | JObj m =>
      match lookup key m with
      | Some x => Ok x
      | None => Ok default
      end
  | _ => Raise AttributeError
  end.

(** [a or b] *)
Definition or (a b : json) : json := if truthy a then a else b.

End Json.

(** ** Dates and times

    An aware [datetime]: the instant it denotes, in microseconds since the
    epoch, and the offset of its zone from UTC, in microseconds. The
    backend's timestamps carry a zone designator, and the clock is read
    with [timezone.utc], so every datetime of the model is aware; two of
    them compare by their instants. *)

Record datetime : Type := mk_datetime {
  instant : Z;
  utcoffset : Z
}.

Module Datetime.

Definition HOUR : Z := 3600000000.
Definition DAY : Z := 86400000000.

(** [datetime.now(timezone.utc)] when the clock reads [clock]. *)
Definition now_utc (clock : Z) : datetime :=
  {| instant := clock; utcoffset := 0 |}.

(** The [hour] attribute: the hour of the day on the datetime's own
    zone. *)
Definition hour (d : datetime) : Z :=
  ((instant d + utcoffset d) / HOUR) mod 24.

Definition leb (a b : datetime) : bool := instant a <=? instant b.
Definition ltb (a b : datetime) : bool := instant a <? instant b.
Definition geb (a b : datetime) : bool := instant b <=? instant a.

(** [d.replace(hour=0, minute=0, second=0, microsecond=0)]. *)
Definition replace_midnight (d : datetime) : datetime :=
  {| instant := instant d - (instant d + utcoffset d) mod DAY;
     utcoffset := utcoffset d |}.

(** [d + timedelta(days=n)]. *)
Definition add_days (d : datetime) (n : Z) : datetime :=
  {| instant := instant d + n * DAY; utcoffset := utcoffset d |}.

End Datetime.

(** ** Python builtins over lists of floats *)

Module Builtins.

(** [float(n)] for a list length [n], below [2 ** 63] as the length of a
    list is. *)
Definition float_of_nat (n : nat) : float :=
  PrimFloat.of_uint63 (Uint63.of_Z (Z.of_nat n)).

(** [x / n] for a float [x] and a list length [n]: true division, which
    raises on a zero divisor. *)
Definition truediv (x : float) (n : nat) : result float :=
  match n with
  | O => Raise ZeroDivisionError
  | S _ => Ok (x / float_of_nat n)%float
  end.

(** The loop of [min(l, key=...)] and [max(l, key=...)]: the item kept so
    far is replaced when [op val maxval] holds, [val < maxval] for [min]
    and [val > maxval] for [max]. *)
Fixpoint min_max_loop {A : Type} (op : float -> float -> bool)
    (key : A -> float) (maxitem : A) (maxval : float) (l : list A) : A :=
  match l with
  | [] => maxitem
  | item :: rest =>
      let val := key item in
      if op val maxval
      then min_max_loop op key item val rest
      else min_max_loop op key maxitem maxval rest
  end.

Definition min_max {A : Type} (op : float -> float -> bool)
    (key : A -> float) (l : list A) : result A :=
  match l with
  | [] => Raise ValueError
  | item :: rest => Ok (min_max_loop op key item (key item) rest)
  end.

Definition lt (x y : float) : bool := PrimFloat.ltb x y.
Definition gt (x y : float) : bool := PrimFloat.ltb y x.

Definition min {A : Type} (key : A -> float) (l : list A) : result A :=
  min_max lt key l.
Definition max {A : Type} (key : A -> float) (l : list A) : result A :=
  min_max gt key l.

(** A value as an operand of arithmetic: a number, or a [bool] as the
    integer it is; [None], strings, lists and dicts are no operands of
    [-]. *)
Definition operand (v : json) : result float :=
  match v with
  | JNum f => Ok f
  | JBool true => Ok 1%float
  | JBool false => Ok 0%float
  | _ => Raise TypeError
  end.

(** [a - b] on two values of a decoded document. *)
Definition sub (a b : json) : result float :=
  match operand a, operand b with
  | Ok x, Ok y => Ok (x - y)%float
  | _, _ => Raise TypeError
  end.

End Builtins.

(** ** models.py: Price, PriceData, MarketPrices

    Each class is a record of its attributes and a module of its methods.
    The builtins [round] and [sum] and dateutil's [parser.parse] are
    variables of the methods that call them. *)

(** Price data for one hour; the attributes have their declared types. *)
Record Price : Type := mk_Price {
  date_from : datetime;
  date_till : datetime;
  market_price : float;
  market_price_tax : float;
  sourcing_markup_price : float;
  energy_tax_price : float
}.

(** Price data for a period of time. *)
Record PriceData : Type := mk_PriceData {
  price_data : list Price
}.

(** Market prices for electricity and gas. *)
Record MarketPrices : Type := mk_MarketPrices {
  electricity : PriceData;
  gas : PriceData
}.

Module Price.
Section Methods.

(** The builtin [round(x, ndigits)] on floats. *)
Variable round : float -> Z -> float.
(** [dateutil.parser.parse] on a member of a decoded record. *)
Variable parse : json -> result datetime.

(** A member that must hold a number, by the declared attribute type.
    (Python stores any value and raises [TypeError] at the first
    arithmetic on it; the model raises it when the record is read.) *)
Definition as_float (v : json) : result float :=
  match v with
  | JNum f => Ok f
  | _ => Raise TypeError
  end.

Definition __init__ (data : json) : result Price :=
  from <- Json.subscript data "from" ;;
  date_from <- parse from ;;
  till <- Json.subscript data "till" ;;
  date_till <- parse till ;;
  market_price <- Json.subscript data "marketPrice" ;;
  market_price_tax <- Json.subscript data "marketPriceTax" ;;
  sourcing_markup_price <- Json.subscript data "sourcingMarkupPrice" ;;
  energy_tax_price <- Json.subscript data "energyTaxPrice" ;;
  mp <- as_float market_price ;;
  mpt <- as_float market_price_tax ;;
  smp <- as_float sourcing_markup_price ;;
  etp <- as_float energy_tax_price ;;
  Ok (mk_Price date_from date_till mp mpt smp etp).

(** Whether this price entry is for the current hour. *)
Definition for_now (clock : Z) (self : Price) : bool :=
  let now := Datetime.now_utc clock in
  Datetime.leb (date_from self) now && Datetime.ltb now (date_till self).

(** Whether this price entry is for an hour after the current one. *)
Definition for_future (clock : Z) (self : Price) : bool :=
  Datetime.hour (Datetime.now_utc clock) <? Datetime.hour (date_from self).

(** Whether this price entry is for the current day. *)
Definition for_today (clock : Z) (self : Price) : bool :=
  let day_start := Datetime.replace_midnight (Datetime.now_utc clock) in
  let day_end := Datetime.add_days day_start 1 in
  Datetime.geb (date_from self) day_start
  && Datetime.leb (date_till self) day_end.


(** The total price for this hour. *)
Definition total (self : Price) : float :=
  round (market_price self
         + market_price_tax self
         + sourcing_markup_price self
         + energy_tax_price self)%float 4.

End Methods.
End Price.

Module PriceData.
Section Methods.

Variable round : float -> Z -> float.
(** The builtin [sum] on a sequence of floats. *)
Variable sum : list float -> float.
Variable parse : json -> result datetime.

(** Without an argument, or with [None] (JSON [null]), the instance reads
    the class attribute [price_data = []]. *)
Definition __init__ (price_data : json) : result PriceData :=
  match price_data with
  | JNull => Ok (mk_PriceData [])
  | _ =>
      items <- Json.iter price_data ;;
      prices <- map_result (Price.__init__ parse) items ;;
      Ok (mk_PriceData prices)
  end.

(** Combine two PriceData objects: a new object, with the concatenation
    as its list. *)
Definition __add__ (self b : PriceData) : PriceData :=
  mk_PriceData (price_data self ++ price_data b).

(** All prices. *)
Definition all (self : PriceData) : list Price := price_data self.

(** Prices for today. *)
Definition today (clock : Z) (self : PriceData) : list Price :=
  filter (Price.for_today clock) (price_data self).

(** Price that's currently applicable: item [0] of the entries for
    now. *)
Definition current_hour (clock : Z) (self : PriceData) : result Price :=
  match filter (Price.for_now clock) (price_data self) with
  | hour :: _ => Ok hour
  | [] => Raise IndexError
  end.

(** Price with the lowest total for today. *)
Definition today_min (clock : Z) (self : PriceData) : result Price :=
  Builtins.min (Price.total round) (today clock self).

(** Price with the highest total for today. *)
Definition today_max (clock : Z) (self : PriceData) : result Price :=
  Builtins.max (Price.total round) (today clock self).

(** Average price for today. *)
Definition today_avg (clock : Z) (self : PriceData) : result float :=
  let s := sum (map (Price.total round) (today clock self)) in
  q <- Builtins.truediv s (List.length (today clock self)) ;;
  Ok (round q 5).

(** Prices for hours after the current one. *)
Definition get_future_prices (clock : Z) (self : PriceData) : list Price :=
  filter (Price.for_future clock) (price_data self).

End Methods.
End PriceData.

Module MarketPrices.
Section Methods.

Variable parse : json -> result datetime.

(** Parse the response from the marketPrices query. *)
Definition from_dict (data : json) : result MarketPrices :=
  errors <- Json.get data "errors" ;;
  if Json.truthy errors then
    e0 <- Json.first errors ;;
    message <- Json.subscript e0 "message" ;;
    no_data <- Json.startswith message "No marketprices found for segment" ;;
    if (no_data : bool) then
      electricity <- PriceData.__init__ parse JNull ;;
      gas <- PriceData.__init__ parse JNull ;;
      Ok (mk_MarketPrices electricity gas)
    else
      Raise (RequestException [message])
  else
    payload <- Json.get data "data" ;;
    if negb (Json.truthy payload) then
      Raise (RequestException [JStr "Unexpected response"])
    else
      el <- Json.get payload "marketPricesElectricity" ;;
      electricity <- PriceData.__init__ parse el ;;
      ga <- Json.get payload "marketPricesGas" ;;
      gas <- PriceData.__init__ parse ga ;;
      Ok (mk_MarketPrices electricity gas).

End Methods.
End MarketPrices.

(** ** frank_energie.py: the client *)

(** The country variants of the backend. *)
Inductive FrankCountry : Type :=
| Netherlands
| Belgium.

(** Authentication data. The two attributes hold what they are given: a
    string or [None] from the constructor of the client, any value of the
    payload from the login or renewToken mutation. *)
Record Authentication : Type := mk_Authentication {
  authToken : json;
  refreshToken : json
}.

(** The attributes of a client; [ClientSession] is the type of aiohttp's
    client sessions. *)
Record FrankEnergie (ClientSession : Type) : Type := mk_FrankEnergie {
  _country : option FrankCountry;
  _close_session : bool;
  _auth : option Authentication;
  _session : option ClientSession;
  _siteReference : option string
}.
Arguments mk_FrankEnergie {ClientSession}.
Arguments _country {ClientSession}.
Arguments _close_session {ClientSession}.
Arguments _auth {ClientSession}.
Arguments _session {ClientSession}.
Arguments _siteReference {ClientSession}.

Module FrankEnergie.

(** [o is not None] *)
Definition is_not_None {A : Type} (o : option A) : bool :=
  match o with
  | Some _ => true
  | None => false
  end.

(** An argument of type [str | None] as the value it is. *)
Definition value (x : option string) : json :=
  match x with
  | Some s => JStr s
  | None => JNull
  end.

Definition __init__ {ClientSession : Type}
    (clientsession : option ClientSession)
    (auth_token refresh_token : option string)
    (country : option FrankCountry) : FrankEnergie ClientSession :=
  {| _country := country;
     _close_session := false;
     _auth :=
       if is_not_None auth_token || is_not_None refresh_token
       then Some (mk_Authentication (value auth_token) (value refresh_token))
       else None;
     _session := clientsession;
     _siteReference := None |}.

(** The loop of [_query] over the entries of the error list. *)
Fixpoint raise_if_not_authorised (errors : list json) : result unit :=
  match errors with
  | [] => Ok tt
  | error :: rest =>
      message <- Json.subscript error "message" ;;
      if Json.eq_str message "user-error:auth-not-authorised"
      then Raise (AuthException [])
      else raise_if_not_authorised rest
  end.

(** [_query], from the decoded response of the backend on: the response
    is returned unless an entry of its error list is the not-authorised
    message. *)
Definition _query (response : json) : result json :=
  errors <- Json.get response "errors" ;;
  if Json.truthy errors then
    items <- Json.iter errors ;;
    _ <- raise_if_not_authorised items ;;
    Ok response
  else
    Ok response.

(** Return if client is authenticated. *)
Definition is_authenticated {ClientSession : Type}
    (self : FrankEnergie ClientSession) : bool :=
  is_not_None (_auth self).

End FrankEnergie.

(** ** Reference models of the builtins, for evaluation *)

Module Reference.

(** The integer nearest to [a / b] for [0 < b], a tie going to the even
    one. *)
Definition div_half_even (a b : Z) : Z :=
  let q := a / b in
  let r := a mod b in
  if 2 * r <? b then q
  else if b <? 2 * r then q + 1
  else if Z.even q then q else q + 1.

Definition float_of_Z (n : Z) : float :=
  PrimFloat.of_uint63 (Uint63.of_Z n).

(** [round(x, ndigits)] for [0 <= ndigits <= 15], the range the package
    uses: the exact value of [x] goes to the nearest multiple of
    [10 ** -ndigits], a tie to the even one, and that decimal to the
    nearest float. A non-finite [x] and a zero round to themselves; so
    does an [x] of magnitude [2 ** 53 / 10 ** ndigits] or more, whose
    neighbours are further apart than the decimal step. *)
Definition py_round (x : float) (ndigits : Z) : float :=
  if (ndigits <? 0) || (15 <? ndigits) then x else
  match Prim2SF x with
  | S754_finite s m e =>
      let p := 10 ^ ndigits in
      let n :=
        if 0 <=? e then Zpos m * 2 ^ e * p
        else div_half_even (Zpos m * p) (2 ^ (- e)) in
      if 2 ^ 53 <=? n then x
      else
        let r := (float_of_Z n / float_of_Z p)%float in
        if s then (- r)%float else r
  | _ => x
  end.

(** [sum] of a sequence of floats, from the integer [0]: the additions
    from left to right, as CPython up to 3.11 does them (later versions
    compensate the rounding errors; the sums evaluated below are exact in
    both). *)
Definition py_sum (l : list float) : float :=
  fold_left PrimFloat.add l 0%float.

Definition digit (c : ascii) : option Z :=
  let n := Z.of_nat (nat_of_ascii c) in
  if (48 <=? n) && (n <=? 57) then Some (n - 48) else None.

Fixpoint number_from (acc : Z) (s : string) : option Z :=
  match s with
  | EmptyString => Some acc
  | String c rest =>
      match digit c with
      | Some d => number_from (10 * acc + d) rest
      | None => None
      end
  end.

(** The number a field of decimal digits writes. *)
Definition field (start len : nat) (s : string) : option Z :=
  number_from 0 (String.substring start len s).

Definition is_leap (y : Z) : bool :=
  (y mod 4 =? 0) && (negb (y mod 100 =? 0) || (y mod 400 =? 0)).

Definition days_in_month (y m : Z) : Z :=
  if m =? 2 then (if is_leap y then 29 else 28)
  else if (m =? 4) || (m =? 6) || (m =? 9) || (m =? 11) then 30
  else 31.

(** Days from 1970-01-01 to the day [y]-[m]-[d] of the proleptic
    Gregorian calendar. *)
Definition days_from_civil (y m d : Z) : Z :=
  let y' := if m <=? 2 then y - 1 else y in
  let era := y' / 400 in
  let yoe := y' - era * 400 in
  let mp := (m + 9) mod 12 in
  let doy := (153 * mp + 2) / 5 + d - 1 in
  let doe := yoe * 365 + yoe / 4 - yoe / 100 + doy in
  era * 146097 + doe - 719468.

(** [parser.parse] on the timestamps the backend sends,
    [YYYY-MM-DDTHH:MM:SS.mmmZ]; the model reads no other format. *)
Definition iso_parse (v : json) : result datetime :=
  match v with
  | JStr s =>
      let punct :=
        (String.substring 4 1 s ++ String.substring 7 1 s
         ++ String.substring 10 1 s ++ String.substring 13 1 s
         ++ String.substring 16 1 s ++ String.substring 19 1 s
         ++ String.substring 23 1 s)%string in
      if negb ((String.length s =? 24)%nat && String.eqb punct "--T::.Z")
      then Raise ParserError
      else
        match field 0 4 s, field 5 2 s, field 8 2 s,
              field 11 2 s, field 14 2 s, field 17 2 s, field 20 3 s with
        | Some y, Some mo, Some d, Some h, Some mi, Some se, Some ms =>
            if (1 <=? y) && (1 <=? mo) && (mo <=? 12)
               && (1 <=? d) && (d <=? days_in_month y mo)
               && (h <=? 23) && (mi <=? 59) && (se <=? 59)
            then
              let secs :=
                ((days_from_civil y mo d * 24 + h) * 60 + mi) * 60 + se in
              Ok {| instant := secs * 1000000 + ms * 1000; utcoffset := 0 |}
            else Raise ParserError
        | _, _, _, _, _, _, _ => Raise ParserError
        end
  | _ => Raise TypeError
  end.

End Reference.

(** ** models.py: Authentication, Invoices, User, MonthSummary

    The dataclasses whose attributes are filled with [payload.get(...)]
    hold whatever the payload has: their attributes are values of
    [json], [JNull] being Python's [None]. *)

Module Authentication.

(** Parse the response from the login or renewToken mutation. *)
Definition from_dict (data : json) : result Authentication :=
  errors <- Json.get data "errors" ;;
  if Json.truthy errors then
    e0 <- Json.first errors ;;
    message <- Json.subscript e0 "message" ;;
    Raise (AuthException [message])
  else
    d <- Json.get_default data "data" (JObj []) ;;
    login_payload <- Json.get d "login" ;;
    d' <- Json.get_default data "data" (JObj []) ;;
    renew_payload <- Json.get d' "renewToken" ;;
    if negb (Json.truthy login_payload) && negb (Json.truthy renew_payload)
    then Raise (AuthException [JStr "Unexpected response"])
    else
      let payload := Json.or login_payload renew_payload in
      auth_token <- Json.get payload "authToken" ;;
      refresh_token <- Json.get payload "refreshToken" ;;
      Ok (mk_Authentication auth_token refresh_token).

End Authentication.

(** Invoice data, including the start date, period description and total
    amount. *)
Record Invoice : Type := mk_Invoice {
  StartDate : datetime;
  PeriodDescription : json;
  TotalAmount : json
}.

(** Invoices data, including the previous, current and upcoming period. *)
Record Invoices : Type := mk_Invoices {
  previousPeriodInvoice : option Invoice;
  currentPeriodInvoice : option Invoice;
  upcomingPeriodInvoice : option Invoice
}.

Module Invoice.
Section Methods.

Variable parse : json -> result datetime.

(** [Invoices.Invoice.from_dict]: [None] for [None]. *)
Definition from_dict (data : json) : result (option Invoice) :=
  match data with
  | JNull => Ok None
  | _ =>
      start_date <- Json.get data "StartDate" ;;
      StartDate <- parse start_date ;;
      PeriodDescription <- Json.get data "PeriodDescription" ;;
      TotalAmount <- Json.get data "TotalAmount" ;;
      Ok (Some (mk_Invoice StartDate PeriodDescription TotalAmount))
  end.

End Methods.
End Invoice.

Module Invoices.
Section Methods.

Variable parse : json -> result datetime.

(** Parse the response from the invoices query. *)
Definition from_dict (data : json) : result Invoices :=
  errors <- Json.get data "errors" ;;
  if Json.truthy errors then
    e0 <- Json.first errors ;;
    message <- Json.subscript e0 "message" ;;
    Raise (RequestException [message])
  else
    d <- Json.get_default data "data" (JObj []) ;;
    payload <- Json.get d "invoices" ;;
    if negb (Json.truthy payload) then
      Raise (RequestException [JStr "Unexpected response"])
    else
      previous <- Json.get payload "previousPeriodInvoice" ;;
      previousPeriodInvoice <- Invoice.from_dict parse previous ;;
      current <- Json.get payload "currentPeriodInvoice" ;;
      currentPeriodInvoice <- Invoice.from_dict parse current ;;
      upcoming <- Json.get payload "upcomingPeriodInvoice" ;;
      upcomingPeriodInvoice <- Invoice.from_dict parse upcoming ;;
      Ok (mk_Invoices previousPeriodInvoice currentPeriodInvoice
            upcomingPeriodInvoice).

End Methods.
End Invoices.

(** User data, including the current status of the connection. *)
Record User : Type := mk_User {
  connectionsStatus : json;
  firstMeterReadingDate : json;
  lastMeterReadingDate : json;
  advancedPaymentAmount : json;
  hasCO2Compensation : json
}.

Module User.

(** Parse the response from the me query. *)
Definition from_dict (data : json) : result User :=
  errors <- Json.get data "errors" ;;
  if Json.truthy errors then
    e0 <- Json.first errors ;;
    message <- Json.subscript e0 "message" ;;
    Raise (RequestException [message])
  else
    d <- Json.get_default data "data" (JObj []) ;;
    payload <- Json.get d "me" ;;
    if negb (Json.truthy payload) then
      Raise (RequestException [JStr "Unexpected response"])
    else
      connectionsStatus <- Json.get payload "connectionsStatus" ;;
      firstMeterReadingDate <- Json.get payload "firstMeterReadingDate" ;;
      lastMeterReadingDate <- Json.get payload "lastMeterReadingDate" ;;
      advancedPaymentAmount <- Json.get payload "advancedPaymentAmount" ;;
      hasCO2Compensation <- Json.get payload "hasCO2Compensation" ;;
      Ok (mk_User connectionsStatus firstMeterReadingDate
            lastMeterReadingDate advancedPaymentAmount hasCO2Compensation).

End User.

(** Month summary data, including the actual and expected costs for this
    month. *)
Record MonthSummary : Type := mk_MonthSummary {
  actualCostsUntilLastMeterReadingDate : json;
  expectedCostsUntilLastMeterReadingDate : json;
  expectedCosts : json;
  MonthSummary_lastMeterReadingDate : json
}.

Module MonthSummary.
Section Methods.

Variable round : float -> Z -> float.

(** Parse the response from the monthSummary query. *)
Definition from_dict (data : json) : result MonthSummary :=
  errors <- Json.get data "errors" ;;
  if Json.truthy errors then
    e0 <- Json.first errors ;;
    message <- Json.subscript e0 "message" ;;
    Raise (RequestException [message])
  else
    d <- Json.get_default data "data" (JObj []) ;;
    payload <- Json.get d "monthSummary" ;;
    if negb (Json.truthy payload) then
      Raise (RequestException [JStr "Unexpected response"])
    else
      actual <- Json.get payload "actualCostsUntilLastMeterReadingDate" ;;
      expected <- Json.get payload "expectedCostsUntilLastMeterReadingDate" ;;
      expectedCosts <- Json.get payload "expectedCosts" ;;
      lastMeterReadingDate <- Json.get payload "lastMeterReadingDate" ;;
      Ok (mk_MonthSummary actual expected expectedCosts lastMeterReadingDate).

(** The difference between the expected costs and the actual costs. *)
Definition differenceUntilLastMeterReadingDate (self : MonthSummary)
  : result float :=
  d <- Builtins.sub (actualCostsUntilLastMeterReadingDate self)
         (expectedCostsUntilLastMeterReadingDate self) ;;
  Ok (round d 2).

End Methods.
End MonthSummary.

(** ** frank_energie.py: the requests

    The GraphQL documents of the requests, as the source writes them. *)

Module Documents.

Definition Login_document : string :=
"
                mutation Login($email: String!, $password: String!) {
                    login(email: $email, password: $password) {
                        authToken
                        refreshToken
                    }
                }
            ".

Definition RenewToken_document : string :=
"
                mutation RenewToken($authToken: String!, $refreshToken: String!) {
                    renewToken(authToken: $authToken, refreshToken: $refreshToken) {
                        authToken
                        refreshToken
                    }
                }
            ".

Definition MonthSummary_document_Netherlands : string :=
"
                query MonthSummary {
                    monthSummary {
                        actualCostsUntilLastMeterReadingDate
                        expectedCostsUntilLastMeterReadingDate
                        expectedCosts
                        lastMeterReadingDate
                    }
                }
            ".

Definition MonthSummary_document_Belgium : string :=
"query MonthSummary($siteReference: String!) {
  monthSummary(siteReference: $siteReference) {
    _id
    lastMeterReadingDate
    expectedCostsUntilLastMeterReadingDate
    actualCostsUntilLastMeterReadingDate
    meterReadingDayCompleteness
    gasExcluded
  }
}
".

Definition Invoices_document_Netherlands : string :=
"
                query Invoices {
                    invoices {
                        previousPeriodInvoice {
                            StartDate
                            PeriodDescription
                            TotalAmount
                        }
                        currentPeriodInvoice {
                            StartDate
                            PeriodDescription
                            TotalAmount
                        }
                        upcomingPeriodInvoice {
                            StartDate
                            PeriodDescription
                            TotalAmount
                        }
                    }
                }
            ".

Definition Invoices_document_Belgium : string :=
"query Invoices($siteReference: String!) {
  invoices(siteReference: $siteReference) {
    _id
    previousPeriodInvoice {
      id
      StartDate
      PeriodDescription
      TotalAmount
      __typename
    }
    currentPeriodInvoice {
      id
      StartDate
      PeriodDescription
      TotalAmount
      __typename
    }
    upcomingPeriodInvoice {
      id
      StartDate
      PeriodDescription
      TotalAmount
      __typename
    }
    allInvoices {
      id
      StartDate
      PeriodDescription
      TotalAmount
      __typename
    }
    __typename
  }
}".

Definition Me_document_Netherlands : string :=
"
                query Me {
                    me {
                        ...UserFields
                    }
                }
                fragment UserFields on User {
                    id
                    connectionsStatus
                    firstMeterReadingDate
                    lastMeterReadingDate
                    advancedPaymentAmount
                    treesCount
                    hasCO2Compensation
                }
            ".

Definition Me_document_Belgium : string :=
"query Me($siteReference: String) {
  me {
    ...UserFields
  }
}

fragment UserFields on User {
  id
  email
  countryCode
  advancedPaymentAmount(siteReference: $siteReference)
  treesCount
  hasInviteLink
  hasCO2Compensation
  notification
  createdAt
  deliverySites {
    reference }
}
".

Definition MarketPrices_document_Netherlands : string :=
"
                    query MarketPrices($startDate: Date!, $endDate: Date!) {
                        marketPricesElectricity(startDate: $startDate, endDate: $endDate) {
                        from
                        till
                        marketPrice
                        marketPriceTax
                        sourcingMarkupPrice
                        energyTaxPrice
                        }
                        marketPricesGas(startDate: $startDate, endDate: $endDate) {
                        from
                        till
                        marketPrice
                        marketPriceTax
                        sourcingMarkupPrice
                        energyTaxPrice
                        }
                    }
                ".

Definition MarketPrices_document_Belgium : string :=
"query MarketPrices($date: String!) {
  marketPrices(date: $date) {
    electricityPrices {
      from
      till
      marketPrice
      marketPriceTax
      sourcingMarkupPrice
      energyTaxPrice
      perUnit
    }
    gasPrices {
      from
      till
      marketPrice
      marketPriceTax
      sourcingMarkupPrice
      energyTaxPrice
      perUnit
    }
  }
}
".

End Documents.

(** A request handed to the transport, and what comes back: the decoded
    body of the response, a failure the client catches
    ([asyncio.TimeoutError], [ClientError], [KeyError]), or any other
    exception, which the client lets through. *)
Record request : Type := mk_request {
  url : string;
  body : json;
  headers : list (string * string)
}.

Inductive reply : Type :=
| Reply (response : json)
| Failed
| Crashed (e : exn).

(** ** frank_energie.py: the methods that talk to the backend

    A method is a function of the state it runs in: the client, the
    requests handed to the transport so far (the latest first) and the
    sessions closed so far. An exception leaves the state as it was when
    it was raised. *)

Module Api.
Section Methods.

(** The type of aiohttp's client sessions, and [ClientSession()]. *)
Variable ClientSession : Type.
Variable new_session : ClientSession.
(** [session.post(...)] followed by [resp.json()], given the requests
    handed to the transport before. *)
Variable post : ClientSession -> list request -> request -> reply.
(** The [value] of a member of the enumeration [FrankCountry], whose
    declaration is not among the sources. *)
Variable country_value : FrankCountry -> string.
(** The builtin [str], as the f-string of the "Authorization" header
    applies it to the auth token. *)
Variable str : json -> string.
(** The attribute [siteReference] of a [User], which the dataclass of
    models.py does not declare. *)
Variable User_siteReference : User -> result (option string).
(** [datetime.date] and [str] on it. *)
Variable date : Type.
Variable date_str : date -> string.
Variable parse : json -> result datetime.

Record state : Type := mk_state {
  self : FrankEnergie ClientSession;
  sent : list request;
  closed : list ClientSession
}.

Definition M (A : Type) : Type := state -> result A * state.

Definition ret {A : Type} (a : A) : M A := fun st => (Ok a, st).

Definition raise {A : Type} (e : exn) : M A := fun st => (Raise e, st).

Definition lift {A : Type} (r : result A) : M A := fun st => (r, st).

Definition bindM {A B : Type} (m : M A) (k : A -> M B) : M B :=
  fun st =>
    match m st with
    | (Ok a, st') => k a st'
    | (Raise e, st') => (Raise e, st')
    end.

Notation "x <~ m ;; k" := (bindM m (fun x => k))
  (at level 61, m at next level, right associativity).

Definition get_self : M (FrankEnergie ClientSession) :=
  fun st => (Ok (self st), st).

Definition set_self (c : FrankEnergie ClientSession) : M unit :=
  fun st => (Ok tt, mk_state c (sent st) (closed st)).

Definition DATA_URL : string := "https://frank-graphql-prod.graphcdn.app/".

(** A string or [None] as a value of a request body. *)
Definition to_json (x : option string) : json :=
  match x with
  | Some s => JStr s
  | None => JNull
  end.

(** [self._country.value] *)
Definition _country_value (c : FrankEnergie ClientSession) : result string :=
  match _country c with
  | Some country => Ok (country_value country)
  | None => Raise AttributeError
  end.

(** [queries[self._country]] *)
Definition select (queries : FrankCountry -> json)
    (c : FrankEnergie ClientSession) : result json :=
  match _country c with
  | Some country => Ok (queries country)
  | None => Raise (KeyError "None")
  end.

Definition _query (query : json) : M json :=
  fun st =>
    let c := self st in
    let c :=
      match _session c with
      | None =>
          mk_FrankEnergie (_country c) true (_auth c) (Some new_session)
            (_siteReference c)
      | Some _ => c
      end in
    let st := mk_state c (sent st) (closed st) in
    let hdrs :=
      match _auth c with
      | Some auth =>
          v <- _country_value c ;;
          Ok [("Authorization", ("Bearer " ++ str (authToken auth))%string);
              ("X-Country", v)]
      | None =>
          v <- _country_value c ;;
          Ok [("X-Country", v)]
      end in
    match hdrs, _session c with
    | Raise e, _ => (Raise e, st)
    | Ok _, None => (Raise AttributeError, st)
    | Ok hdrs, Some session =>
        let req := mk_request DATA_URL query hdrs in
        let st' := mk_state c (req :: sent st) (closed st) in
        match post session (sent st) req with
        | Failed => (Raise ValueError, st')
        | Crashed e => (Raise e, st')
        | Reply response => (FrankEnergie._query response, st')
        end
    end.

Definition set_auth (auth : Authentication) : M unit :=
  c <~ get_self ;;
  set_self (mk_FrankEnergie (_country c) (_close_session c) (Some auth)
              (_session c) (_siteReference c)).

Definition set_siteReference (ref : option string) : M unit :=
  c <~ get_self ;;
  set_self (mk_FrankEnergie (_country c) (_close_session c) (_auth c)
              (_session c) ref).

(** [if self._auth is None: raise AuthRequiredException] *)
Definition require_auth : M Authentication :=
  c <~ get_self ;;
  match _auth c with
  | None => raise AuthRequiredException
  | Some auth => ret auth
  end.

(** Get user data. *)
Definition user : M User :=
  _ <~ require_auth ;;
  let queries country :=
    match country with
    | Netherlands =>
        JObj [("query", JStr Documents.Me_document_Netherlands);
              ("operationName", JStr "Me");
              ("variables", JObj [])]
    | Belgium =>
        JObj [("query", JStr Documents.Me_document_Belgium);
              ("variables", JObj [("siteReference", JNull)]);
              ("operationName", JStr "Me")]
    end in
  c <~ get_self ;;
  query <~ lift (select queries c) ;;
  response <~ _query query ;;
  lift (User.from_dict response).

Definition _load_site_reference : M unit :=
  _ <~ require_auth ;;
  c <~ get_self ;;
  match _country c, _siteReference c with
  | Some Belgium, None =>
      me <~ user ;;
      ref <~ lift (User_siteReference me) ;;
      set_siteReference ref
  | _, _ => ret tt
  end.

(** Login and get the authentication token. *)
Definition login (username password : string) : M (option Authentication) :=
  let query :=
    JObj [("query", JStr Documents.Login_document);
          ("operationName", JStr "Login");
          ("variables",
           JObj [("email", JStr username); ("password", JStr password)])] in
  response <~ _query query ;;
  auth <~ lift (Authentication.from_dict response) ;;
  _ <~ set_auth auth ;;
  _ <~ _load_site_reference ;;
  c <~ get_self ;;
  ret (_auth c).

(** Renew the authentication token. *)
Definition renew_token : M (option Authentication) :=
  old <~ require_auth ;;
  let query :=
    JObj [("query", JStr Documents.RenewToken_document);
          ("operationName", JStr "RenewToken");
          ("variables",
           JObj [("authToken", authToken old);
                 ("refreshToken", refreshToken old)])] in
  response <~ _query query ;;
  auth <~ lift (Authentication.from_dict response) ;;
  _ <~ set_auth auth ;;
  _ <~ _load_site_reference ;;
  c <~ get_self ;;
  ret (_auth c).

(** Get month summary data. *)
Definition month_summary : M MonthSummary :=
  _ <~ require_auth ;;
  _ <~ _load_site_reference ;;
  c <~ get_self ;;
  let queries country :=
    match country with
    | Netherlands =>
        JObj [("query", JStr Documents.MonthSummary_document_Netherlands);
              ("operationName", JStr "MonthSummary");
              ("variables", JObj [])]
    | Belgium =>
        JObj [("query", JStr Documents.MonthSummary_document_Belgium);
              ("variables",
               JObj [("siteReference", to_json (_siteReference c))]);
              ("operationName", JStr "MonthSummary")]
    end in
  query <~ lift (select queries c) ;;
  response <~ _query query ;;
  lift (MonthSummary.from_dict response).

(** Get invoices data. *)
Definition invoices : M Invoices :=
  _ <~ require_auth ;;
  _ <~ _load_site_reference ;;
  c <~ get_self ;;
  let queries country :=
    match country with
    | Netherlands =>
        JObj [("query", JStr Documents.Invoices_document_Netherlands);
              ("operationName", JStr "Invoices");
              ("variables", JObj [])]
    | Belgium =>
        JObj [("query", JStr Documents.Invoices_document_Belgium);
              ("variables",
               JObj [("siteReference", to_json (_siteReference c))]);
              ("operationName", JStr "Invoices")]
    end in
  query <~ lift (select queries c) ;;
  response <~ _query query ;;
  lift (Invoices.from_dict parse response).

(** [str(end_date)] for a date or [None]. *)
Definition str_date (d : option date) : string :=
  match d with
  | Some d => date_str d
  | None => "None"
  end.

(** Get market prices. *)
Definition prices (start_date : date) (end_date : option date)
  : M MarketPrices :=
  let queries country :=
    match country with
    | Netherlands =>
        JObj [("query", JStr Documents.MarketPrices_document_Netherlands);
              ("variables",
               JObj [("startDate", JStr (date_str start_date));
                     ("endDate", JStr (str_date end_date))]);
              ("operationName", JStr "MarketPrices")]
    | Belgium =>
        JObj [("query", JStr Documents.MarketPrices_document_Belgium);
              ("variables", JObj [("date", JStr (date_str start_date))]);
              ("operationName", JStr "MarketPrices")]
    end in
  c <~ get_self ;;
  query <~ lift (select queries c) ;;
  response <~ _query query ;;
  lift (MarketPrices.from_dict parse response).

(** Close client session. *)
Definition close : M unit :=
  fun st =>
    match _session (self st) with
    | Some session =>
        if _close_session (self st)
        then (Ok tt, mk_state (self st) (sent st) (session :: closed st))
        else (Ok tt, st)
    | None => (Ok tt, st)
    end.

Definition __aenter__ : M (FrankEnergie ClientSession) := get_self.

Definition __aexit__ : M unit := close.

End Methods.
End Api.

Arguments Api.mk_state {ClientSession}.
Arguments Api.self {ClientSession}.
Arguments Api.sent {ClientSession}.
Arguments Api.closed {ClientSession}.

(** * Properties *)

(** ** The order of floats

    [<] and [<=] on floats that are not NaN, from the specification of the
    primitive operations on [spec_float]. *)

Module FloatOrder.

Definition sf_is_nan (x : spec_float) : bool :=
  match x with
  | S754_nan => true
  | _ => false
  end.

Lemma SFcompare_refl x : sf_is_nan x = false -> SFcompare x x = Some Eq.
Proof.
  destruct x as [s|s| |s m e]; cbn; try discriminate; intros _.
  - reflexivity.
  - destruct s; reflexivity.
  - rewrite Z.compare_refl, Pos.compare_cont_refl. destruct s; reflexivity.
Qed.

Lemma is_nan_spec x : PrimFloat.is_nan x = sf_is_nan (Prim2SF x).
Proof.
  unfold PrimFloat.is_nan. rewrite FloatAxioms.eqb_spec. unfold SFeqb.
  destruct (sf_is_nan (Prim2SF x)) eqn:E.
  - destruct (Prim2SF x); try discriminate. reflexivity.
  - rewrite SFcompare_refl by exact E. reflexivity.
Qed.

Ltac cmp_cases :=
  repeat match goal with
  | |- context [Z.compare ?a ?b] =>
      let H := fresh in destruct (Z.compare_spec a b) as [H|H|H]
  | |- context [Pos.compare_cont Eq ?a ?b] =>
      let H := fresh in
      change (Pos.compare_cont Eq a b) with (Pos.compare a b);
      destruct (Pos.compare_spec a b) as [H|H|H]
  | H : context [Z.compare ?a ?b] |- _ =>
      let H' := fresh in destruct (Z.compare_spec a b) as [H'|H'|H']
  | H : context [Pos.compare_cont Eq ?a ?b] |- _ =>
      let H' := fresh in
      change (Pos.compare_cont Eq a b) with (Pos.compare a b) in H;
      destruct (Pos.compare_spec a b) as [H'|H'|H']
  end.

Lemma SF_lt_not_le a b : SFltb a b = true -> SFleb b a = false.
Proof.
  unfold SFltb, SFleb.
  destruct a as [sa|sa| |sa ma ea], b as [sb|sb| |sb mb eb];
    cbn; try discriminate;
    try destruct sa; try destruct sb; cbn; try congruence;
    cmp_cases; cbn; subst; try congruence; try lia.
Qed.

Lemma SF_not_lt_le a b :
  sf_is_nan a = false -> sf_is_nan b = false ->
  SFltb a b = false -> SFleb b a = true.
Proof.
  unfold SFltb, SFleb.
  destruct a as [sa|sa| |sa ma ea], b as [sb|sb| |sb mb eb];
    cbn; try discriminate; intros _ _;
    try destruct sa; try destruct sb; cbn; try congruence;
    cmp_cases; cbn; subst; try congruence; try lia.
Qed.

Lemma SF_le_lt_trans a b c :
  SFleb a b = true -> SFltb b c = true -> SFltb a c = true.
Proof.
  unfold SFltb, SFleb.
  destruct a as [sa|sa| |sa ma ea], b as [sb|sb| |sb mb eb],
    c as [sc|sc| |sc mc ec];
    cbn; try discriminate;
    try destruct sa; try destruct sb; try destruct sc; cbn; try congruence;
    cmp_cases; cbn; subst; try congruence; try lia.
Qed.

Lemma SF_lt_le_trans a b c :
  SFltb a b = true -> SFleb b c = true -> SFltb a c = true.
Proof.
  unfold SFltb, SFleb.
  destruct a as [sa|sa| |sa ma ea], b as [sb|sb| |sb mb eb],
    c as [sc|sc| |sc mc ec];
    cbn; try discriminate;
    try destruct sa; try destruct sb; try destruct sc; cbn; try congruence;
    cmp_cases; cbn; subst; try congruence; try lia.
Qed.

(** The same facts on primitive floats. *)

Lemma lt_not_le x y :
  PrimFloat.ltb x y = true -> PrimFloat.leb y x = false.
Proof.
  rewrite FloatAxioms.ltb_spec, FloatAxioms.leb_spec. apply SF_lt_not_le.
Qed.

Lemma not_lt_le x y :
  PrimFloat.is_nan x = false -> PrimFloat.is_nan y = false ->
  PrimFloat.ltb x y = false -> PrimFloat.leb y x = true.
Proof.
  rewrite !is_nan_spec, FloatAxioms.ltb_spec, FloatAxioms.leb_spec.
  apply SF_not_lt_le.
Qed.

Lemma le_lt_trans x y z :
  PrimFloat.leb x y = true -> PrimFloat.ltb y z = true ->
  PrimFloat.ltb x z = true.
Proof.
  rewrite !FloatAxioms.ltb_spec, FloatAxioms.leb_spec.
  apply SF_le_lt_trans.
Qed.

Lemma lt_le_trans x y z :
  PrimFloat.ltb x y = true -> PrimFloat.leb y z = true ->
  PrimFloat.ltb x z = true.
Proof.
  rewrite !FloatAxioms.ltb_spec, FloatAxioms.leb_spec.
  apply SF_lt_le_trans.
Qed.

Lemma lt_le x y : PrimFloat.ltb x y = true -> PrimFloat.leb x y = true.
Proof.
  rewrite FloatAxioms.ltb_spec, FloatAxioms.leb_spec. unfold SFltb, SFleb.
  destruct (SFcompare (Prim2SF x) (Prim2SF y)) as [[]|]; congruence.
Qed.

Lemma lt_trans x y z :
  PrimFloat.ltb x y = true -> PrimFloat.ltb y z = true ->
  PrimFloat.ltb x z = true.
Proof. intros H. apply le_lt_trans. apply lt_le. exact H. Qed.

End FloatOrder.

(** ** The loop of [min] and [max]

    [op] is the comparison of the loop and [ople] its large counterpart:
    [<] and [<=] for [min], [>] and [>=] for [max]. The three facts
    assumed of them hold of all floats, NaN included. *)

Section MinMaxLoop.

Context {A : Type}.
Variable op ople : float -> float -> bool.
Variable key : A -> float.

Hypothesis op_trans :
  forall x y z, op x y = true -> op y z = true -> op x z = true.
Hypothesis op_not_ople :
  forall x y, op x y = true -> ople y x = false.
Hypothesis ople_op_trans :
  forall x y z, ople x y = true -> op y z = true -> op x z = true.

(** [first_extreme l m]: [m] is an item of [l], the key of no item
    before it reaches the key of [m], and the key of no item after it
    passes the key of [m]. *)
Definition first_extreme (l : list A) (m : A) : Prop :=
  exists pre post,
    l = pre ++ m :: post
    /\ Forall (fun h => ople (key h) (key m) = false) pre
    /\ Forall (fun h => op (key h) (key m) = false) post.

Lemma min_max_loop_first_extreme (l : list A) :
  forall cur,
    exists pre post,
      let m := Builtins.min_max_loop op key cur (key cur) l in
      cur :: l = pre ++ m :: post
      /\ Forall (fun h => ople (key h) (key m) = false) pre
      /\ Forall (fun h => op (key h) (key m) = false) post
      /\ (pre = [] \/ op (key m) (key cur) = true).
Proof.
  induction l as [|x rest IH]; intros cur; cbn.
  - exists [], []. split; [reflexivity|].
    split; [constructor|]. split; [constructor|]. left. reflexivity.
  - destruct (op (key x) (key cur)) eqn:E.
    + destruct (IH x) as (pre & post & Heq & Hpre & Hpost & Hrel).
      cbn in Heq, Hpre, Hpost, Hrel.
      set (m := Builtins.min_max_loop op key x (key x) rest) in *.
      assert (Hmc : op (key m) (key cur) = true).
      { destruct Hrel as [Hnil|Hlt].
        - subst pre. cbn in Heq. injection Heq as Hm _.
          rewrite <- Hm. exact E.
        - apply op_trans with (key x); assumption. }
      exists (cur :: pre), post. split; [cbn; f_equal; exact Heq|].
      split; [|split; [exact Hpost|right; exact Hmc]].
      constructor; [|exact Hpre]. apply op_not_ople. exact Hmc.
    + destruct (IH cur) as (pre & post & Heq & Hpre & Hpost & Hrel).
      cbn in Heq, Hpre, Hpost, Hrel.
      set (m := Builtins.min_max_loop op key cur (key cur) rest) in *.
      destruct pre as [|y pre'].
      * cbn in Heq. injection Heq as Hm Hp.
        exists [], (x :: rest). split; [cbn; f_equal; exact Hm|].
        split; [constructor|]. split; [|left; reflexivity].
        constructor; [rewrite <- Hm; exact E|].
        rewrite Hp. exact Hpost.
      * cbn in Heq. injection Heq as Hy Hp.
        destruct Hrel as [Hnil|Hlt]; [discriminate|].
        exists (cur :: x :: pre'), post.
        split; [cbn; do 2 f_equal; exact Hp|].
        apply Forall_cons_iff in Hpre as [Hyc Hpre'].
        split; [|split; [exact Hpost|right; exact Hlt]].
        constructor; [rewrite Hy; exact Hyc|].
        constructor; [|exact Hpre'].
        destruct (ople (key x) (key m)) eqn:Exm; [|reflexivity].
        rewrite (ople_op_trans _ _ _ Exm Hlt) in E. discriminate.
Qed.

(** On a list that is not empty the builtin returns its first extreme;
    on the empty list it raises [ValueError]. *)
Lemma min_max_first_extreme (l : list A) :
  match l with
  | [] => Builtins.min_max op key l = Raise ValueError
  | _ :: _ => exists m, Builtins.min_max op key l = Ok m /\ first_extreme l m
  end.
Proof.
  destruct l as [|x rest]; [reflexivity|].
  destruct (min_max_loop_first_extreme rest x)
    as (pre & post & Heq & Hpre & Hpost & _).
  eexists. split; [reflexivity|]. exists pre, post. auto.
Qed.

End MinMaxLoop.

(** ** Concrete series, for evaluation *)

Module Examples.

(** 2023-01-01T00:00:00Z, in microseconds since the epoch. *)
Definition day0 : Z := 1672531200000000.

(** The clock at 2023-01-01T10:30:00Z. *)
Definition clock0 : Z := day0 + 10 * Datetime.HOUR + 1800000000.

(** The price of the hour [h] of 2023-01-01 (UTC), with the given market
    price and no tax or markup. *)
Definition hourly (h : Z) (market_price : float) : Price :=
  {| date_from := mk_datetime (day0 + h * Datetime.HOUR) 0;
     date_till := mk_datetime (day0 + (h + 1) * Datetime.HOUR) 0;
     market_price := market_price;
     market_price_tax := 0;
     sourcing_markup_price := 0;
     energy_tax_price := 0 |}.

(** Totals 10.0 and 20.0 on 2023-01-01, and 40.0 on the next day. *)
Definition two_hours : PriceData :=
  mk_PriceData [hourly 3 10; hourly 4 20; hourly 27 40].

(** Totals 3, 1, 2, 1, 3 on 2023-01-01: both extremes occur twice. *)
Definition with_ties : PriceData :=
  mk_PriceData [hourly 0 3; hourly 1 1; hourly 2 2; hourly 3 1; hourly 4 3].

(** Two entries that both cover the clock of [clock0]. *)
Definition overlapping : PriceData :=
  mk_PriceData [hourly 9 1; hourly 10 2; hourly 10 3; hourly 11 4].

Definition empty : PriceData := mk_PriceData [].

End Examples.

(** ** Price *)


(** A record of the backend: 0.1, 0.021, 0.0182 and 0.1525. *)
Definition a_record : json :=
  JObj [("from", JStr "2023-01-01T00:00:00.000Z");
        ("till", JStr "2023-01-01T01:00:00.000Z");
        ("marketPrice", JNum 0x1.999999999999ap-4);
        ("marketPriceTax", JNum 0x1.5810624dd2f1bp-6);
        ("sourcingMarkupPrice", JNum 0x1.2a305532617c2p-6);
        ("energyTaxPrice", JNum 0x1.3851eb851eb85p-3)].


(** ** PriceData *)

(** C2. The entries of [a + b] are the entries of [a] followed by those of
    [b], in order; so the series has [len(a) + len(b)] entries, and [+] is
    associative on the contents. *)
Theorem add_concatenates :
  forall a b c : PriceData,
    PriceData.all (PriceData.__add__ a b)
    = PriceData.all a ++ PriceData.all b
    /\ List.length (PriceData.all (PriceData.__add__ a b))
       = (List.length (PriceData.all a) + List.length (PriceData.all b))%nat
    /\ PriceData.all (PriceData.__add__ (PriceData.__add__ a b) c)
       = PriceData.all (PriceData.__add__ a (PriceData.__add__ b c)).
Proof.
  intros a b c. unfold PriceData.all, PriceData.__add__. cbn.
  split; [reflexivity|].
  split; [apply length_app|]. symmetry. apply app_assoc.
Qed.

(** The [n]-th entry of [a + b] is the [n]-th of [a], or, past the end of
    [a], the entry of [b] at the remaining index. *)
Lemma add_nth_error (a b : PriceData) (n : nat) :
  nth_error (PriceData.all (PriceData.__add__ a b)) n
  = if (n <? List.length (PriceData.all a))%nat
    then nth_error (PriceData.all a) n
    else nth_error (PriceData.all b) (n - List.length (PriceData.all a)).
Proof.
  unfold PriceData.all, PriceData.__add__. cbn [price_data].
  destruct (Nat.ltb_spec n (List.length (price_data a))).
  - apply nth_error_app1. assumption.
  - apply nth_error_app2. assumption.
Qed.

(** [for_now] is [date_from <= now < date_till]. *)
Lemma for_now_iff (clock : Z) (p : Price) :
  Price.for_now clock p = true
  <-> instant (date_from p) <= clock < instant (date_till p).
Proof.
  unfold Price.for_now, Datetime.leb, Datetime.ltb, Datetime.now_utc. cbn.
  rewrite andb_true_iff, Z.leb_le, Z.ltb_lt. reflexivity.
Qed.

(** [for_today] is [date_from >= day_start and date_till <= day_end], for
    the start of the UTC day of the clock and the instant a day later. *)
Lemma for_today_iff (clock : Z) (p : Price) :
  Price.for_today clock p = true
  <-> clock - clock mod Datetime.DAY <= instant (date_from p)
      /\ instant (date_till p)
         <= clock - clock mod Datetime.DAY + Datetime.DAY.
Proof.
  unfold Price.for_today, Datetime.geb, Datetime.leb,
    Datetime.replace_midnight, Datetime.add_days, Datetime.now_utc.
  cbn [instant utcoffset].
  rewrite andb_true_iff, !Z.leb_le, Z.add_0_r, Z.mul_1_l. reflexivity.
Qed.

(** Item [0] of a filtered list is the first item that passes the
    test. *)
Lemma filter_first {A : Type} (f : A -> bool) (l : list A) :
  match filter f l with
  | [] => Forall (fun x => f x = false) l
  | h :: _ =>
      exists pre post,
        l = pre ++ h :: post
        /\ Forall (fun x => f x = false) pre
        /\ f h = true
  end.
Proof.
  induction l as [|x rest IH]; cbn.
  - constructor.
  - destruct (f x) eqn:E.
    + exists [], rest. split; [reflexivity|]. split; [constructor|exact E].
    + destruct (filter f rest) as [|h t].
      * constructor; assumption.
      * destruct IH as (pre & post & -> & Hpre & Hh).
        exists (x :: pre), post. split; [reflexivity|].
        split; [constructor; assumption|exact Hh].
Qed.

(** C5, as the code has it. [current_hour] returns the first entry of the
    series, in its order, whose interval holds the clock
    ([date_from <= now < date_till]); when no entry does, it raises
    [IndexError]. *)
Theorem current_hour_first_match :
  forall (clock : Z) (pd : PriceData),
    (exists pre hour post,
        PriceData.all pd = pre ++ hour :: post
        /\ Forall (fun h => Price.for_now clock h = false) pre
        /\ instant (date_from hour) <= clock < instant (date_till hour)
        /\ PriceData.current_hour clock pd = Ok hour)
    \/ (Forall (fun h => Price.for_now clock h = false) (PriceData.all pd)
        /\ PriceData.current_hour clock pd = Raise IndexError).
Proof.
  intros clock pd. unfold PriceData.current_hour, PriceData.all.
  pose proof (filter_first (Price.for_now clock) (price_data pd)) as H.
  destruct (filter (Price.for_now clock) (price_data pd)) as [|h t].
  - right. split; [exact H|reflexivity].
  - left. destruct H as (pre & post & Heq & Hpre & Hh).
    exists pre, h, post. rewrite <- for_now_iff. auto.
Qed.

(** C5 fails as stated: on a series without a current entry the exception
    is not one of a class [NotFound]. *)
Lemma current_hour_raises_no_NotFound :
  Forall (fun h => Price.for_now Examples.clock0 h = false)
    (PriceData.all Examples.empty)
  /\ ~ raises (PriceData.current_hour Examples.clock0 Examples.empty)
         "NotFound".
Proof.
  split; [constructor|].
  intros (e & He & Hname). cbn in He. injection He as <-. discriminate.
Qed.

(** With two entries over the clock, the earlier in the series is
    returned. *)
Example current_hour_overlapping :
  PriceData.current_hour Examples.clock0 Examples.overlapping
  = Ok (Examples.hourly 10 2).
Proof. vm_compute. reflexivity. Qed.

(** [first_min key l m] and [first_max key l m]: [m] is the first item of
    [l] with the least, resp. the greatest, key: no item of [l] has a key
    below (above) that of [m], and no item before [m] has a key as low (as
    high). *)
Definition first_min {A : Type} (key : A -> float) (l : list A) (m : A)
  : Prop :=
  exists pre post,
    l = pre ++ m :: post
    /\ Forall (fun h => (key h <=? key m)%float = false) pre
    /\ Forall (fun h => (key h <? key m)%float = false) l.

Definition first_max {A : Type} (key : A -> float) (l : list A) (m : A)
  : Prop :=
  exists pre post,
    l = pre ++ m :: post
    /\ Forall (fun h => (key m <=? key h)%float = false) pre
    /\ Forall (fun h => (key m <? key h)%float = false) l.

Lemma lt_irrefl (x : float) : (x <? x)%float = false.
Proof.
  destruct (x <? x)%float eqn:E; [|reflexivity].
  pose proof (FloatOrder.lt_not_le _ _ E) as H.
  rewrite (FloatOrder.lt_le _ _ E) in H. discriminate.
Qed.

Lemma not_le_not_lt (x y : float) :
  (x <=? y)%float = false -> (x <? y)%float = false.
Proof.
  intros H. destruct (x <? y)%float eqn:E; [|reflexivity].
  rewrite (FloatOrder.lt_le _ _ E) in H. discriminate.
Qed.

Lemma min_first_min {A : Type} (key : A -> float) (l : list A) :
  match l with
  | [] => Builtins.min key l = Raise ValueError
  | _ :: _ => exists m, Builtins.min key l = Ok m /\ first_min key l m
  end.
Proof.
  pose proof (min_max_first_extreme Builtins.lt PrimFloat.leb key
                FloatOrder.lt_trans FloatOrder.lt_not_le
                FloatOrder.le_lt_trans l) as H.
  destruct l as [|x rest]; [exact H|].
  destruct H as (m & Hm & pre & post & Heq & Hpre & Hpost).
  exists m. split; [exact Hm|]. exists pre, post.
  split; [exact Heq|]. split; [exact Hpre|].
  rewrite Heq. apply Forall_app. split.
  - eapply Forall_impl; [|exact Hpre]. intros h. apply not_le_not_lt.
  - constructor; [apply lt_irrefl|exact Hpost].
Qed.

Lemma max_first_max {A : Type} (key : A -> float) (l : list A) :
  match l with
  | [] => Builtins.max key l = Raise ValueError
  | _ :: _ => exists m, Builtins.max key l = Ok m /\ first_max key l m
  end.
Proof.
  pose proof (min_max_first_extreme Builtins.gt
                (fun x y => PrimFloat.leb y x) key
                (fun x y z Hxy Hyz => FloatOrder.lt_trans z y x Hyz Hxy)
                (fun x y Hxy => FloatOrder.lt_not_le y x Hxy)
                (fun x y z Hxy Hyz => FloatOrder.lt_le_trans z y x Hyz Hxy)
                l) as H.
  destruct l as [|x rest]; [exact H|].
  destruct H as (m & Hm & pre & post & Heq & Hpre & Hpost).
  exists m. split; [exact Hm|]. exists pre, post.
  split; [exact Heq|]. split; [exact Hpre|].
  rewrite Heq. apply Forall_app. split.
  - eapply Forall_impl; [|exact Hpre]. intros h. apply not_le_not_lt.
  - constructor; [apply lt_irrefl|exact Hpost].
Qed.

(** C6, as the code has it. When some entry is of the day, [today_min]
    and [today_max] return the first entry of the day, in series order,
    with the least, resp. the greatest, total: no entry of the day has a
    total below (above) it and no earlier entry of the day has a total as
    low (as high). When no entry is of the day, both raise
    [ValueError]. *)
Theorem today_min_max_first_extreme :
  forall (round : float -> Z -> float) (clock : Z) (pd : PriceData),
    match PriceData.today clock pd with
    | [] =>
        PriceData.today_min round clock pd = Raise ValueError
        /\ PriceData.today_max round clock pd = Raise ValueError
    | _ :: _ =>
        (exists lo,
            PriceData.today_min round clock pd = Ok lo
            /\ first_min (Price.total round) (PriceData.today clock pd) lo)
        /\ (exists hi,
               PriceData.today_max round clock pd = Ok hi
               /\ first_max (Price.total round)
                    (PriceData.today clock pd) hi)
    end.
Proof.
  intros round clock pd. unfold PriceData.today_min, PriceData.today_max.
  pose proof (min_first_min (Price.total round) (PriceData.today clock pd))
    as Hmin.
  pose proof (max_first_max (Price.total round) (PriceData.today clock pd))
    as Hmax.
  destruct (PriceData.today clock pd) as [|x rest]; split; assumption.
Qed.

(** C6 fails as stated: on a series without an entry of the day the
    exception of [today_min] and of [today_max] is not one of a class
    [EmptyRange]. *)
Lemma today_min_max_raise_no_EmptyRange :
  PriceData.today Examples.clock0 Examples.empty = []
  /\ ~ raises
         (PriceData.today_min Reference.py_round
            Examples.clock0 Examples.empty)
         "EmptyRange"
  /\ ~ raises
         (PriceData.today_max Reference.py_round
            Examples.clock0 Examples.empty)
         "EmptyRange".
Proof.
  split; [reflexivity|].
  split; intros (e & He & Hname); cbn in He; injection He as <-;
    discriminate.
Qed.

(** On totals 3, 1, 2, 1, 3 the first 1 and the first 3 are returned. *)
Example today_min_max_with_ties :
  PriceData.today_min Reference.py_round Examples.clock0 Examples.with_ties
  = Ok (Examples.hourly 1 1)
  /\ PriceData.today_max Reference.py_round
       Examples.clock0 Examples.with_ties
     = Ok (Examples.hourly 0 3).
Proof. vm_compute. split; reflexivity. Qed.

(** Where no key of the list is NaN, the first minimum is below or equal
    to every item. *)
Lemma first_min_le {A : Type} (key : A -> float) (l : list A) (m : A) :
  Forall (fun h => PrimFloat.is_nan (key h) = false) l ->
  first_min key l m ->
  Forall (fun h => (key m <=? key h)%float = true) l.
Proof.
  intros Hok (pre & post & Heq & _ & Hall).
  assert (Hm : PrimFloat.is_nan (key m) = false).
  { rewrite Heq in Hok. apply Forall_app in Hok as [_ Hok].
    inversion Hok; assumption. }
  rewrite Forall_forall in *. intros h Hin.
  apply FloatOrder.not_lt_le; auto.
Qed.

(** C7, as the code has it. When some entry is of the day, [today_avg] is
    the sum of the totals of the entries of the day divided by their
    number, rounded to 5 decimals; on totals 10.0 and 20.0 it is 15.0.
    When no entry is of the day, the division is by zero and raises
    [ZeroDivisionError]. *)
Theorem today_avg_mean_or_zero_division :
  (forall (round : float -> Z -> float) (sum : list float -> float)
          (clock : Z) (pd : PriceData),
      PriceData.today_avg round sum clock pd
      = match PriceData.today clock pd with
        | [] => Raise ZeroDivisionError
        | _ :: _ =>
            Ok (round
                  (sum (map (Price.total round) (PriceData.today clock pd))
                   / Builtins.float_of_nat
                       (List.length (PriceData.today clock pd)))%float
                  5)
        end)
  /\ map (Price.total Reference.py_round)
         (PriceData.today Examples.clock0 Examples.two_hours)
     = [10%float; 20%float]
  /\ PriceData.today_avg Reference.py_round Reference.py_sum
       Examples.clock0 Examples.two_hours
     = Ok 15%float.
Proof.
  split.
  - intros round sum clock pd. unfold PriceData.today_avg.
    destruct (PriceData.today clock pd) as [|x rest]; reflexivity.
  - split; vm_compute; reflexivity.
Qed.

(** C7 fails as stated: on a series without an entry of the day the
    exception of [today_avg] is not one of a class [EmptyRange]. *)
Lemma today_avg_raises_no_EmptyRange :
  PriceData.today Examples.clock0 Examples.empty = []
  /\ ~ raises
         (PriceData.today_avg Reference.py_round Reference.py_sum
            Examples.clock0 Examples.empty)
         "EmptyRange".
Proof.
  split; [reflexivity|].
  intros (e & He & Hname). cbn in He. injection He as <-. discriminate.
Qed.

(** ** The hour-only comparison of [for_future] *)

Lemma hour_add_days (d : datetime) (k : Z) :
  Datetime.hour (Datetime.add_days d k) = Datetime.hour d.
Proof.
  unfold Datetime.hour, Datetime.add_days. cbn [instant utcoffset].
  replace (instant d + k * Datetime.DAY + utcoffset d)
    with (instant d + utcoffset d + (k * 24) * Datetime.HOUR)
    by (unfold Datetime.DAY, Datetime.HOUR; lia).
  rewrite Z.div_add by (unfold Datetime.HOUR; lia).
  apply Z_mod_plus_full.
Qed.

(** The entry [p] with its start moved by [k] days. *)
Definition start_days_later (p : Price) (k : Z) : Price :=
  {| date_from := Datetime.add_days (date_from p) k;
     date_till := date_till p;
     market_price := market_price p;
     market_price_tax := market_price_tax p;
     sourcing_markup_price := sourcing_markup_price p;
     energy_tax_price := energy_tax_price p |}.

(** C8. [for_future] holds exactly when the hour of the day of
    [date_from] is greater than the hour of the day of the clock (UTC);
    the dates play no part: moving the clock or the start of the entry by
    whole days leaves it unchanged. *)
Theorem for_future_compares_hours :
  forall (clock : Z) (p : Price),
    (Price.for_future clock p = true
     <-> Datetime.hour (date_from p)
         > Datetime.hour (Datetime.now_utc clock))
    /\ (forall k,
           Price.for_future (clock + k * Datetime.DAY) p
           = Price.for_future clock p)
    /\ (forall k,
           Price.for_future clock (start_days_later p k)
           = Price.for_future clock p).
Proof.
  intros clock p. unfold Price.for_future. split; [|split].
  - rewrite Z.ltb_lt. lia.
  - intros k.
    change (Datetime.now_utc (clock + k * Datetime.DAY))
      with (Datetime.add_days (Datetime.now_utc clock) k).
    rewrite hour_add_days. reflexivity.
  - intros k. cbn [date_from start_days_later].
    rewrite hour_add_days. reflexivity.
Qed.

(** An entry of 23:00 a year back is "future" at 10:30, and the entry of
    09:00 of the next day is not. *)
Example for_future_ignores_date :
  Price.for_future Examples.clock0 (Examples.hourly (23 - 365 * 24) 1)
  = true
  /\ Price.for_future Examples.clock0 (Examples.hourly (24 + 9) 1) = false.
Proof. vm_compute. split; reflexivity. Qed.

(** ** Responses *)

Module Responses.

(** The response of the backend to a price query on a segment it has no
    prices for. *)
Definition no_prices : json :=
  JObj [("errors",
         JList [JObj [("message",
                       JStr "No marketprices found for segment A")]]);
        ("data", JNull)].

(** A response that refuses the token, after another error. *)
Definition not_authorised : json :=
  JObj [("errors",
         JList [JObj [("message", JStr "Something went wrong")];
                JObj [("message", JStr "user-error:auth-not-authorised");
                      ("path", JList [JStr "me"])]]);
        ("data", JNull)].

Definition record (from till : string) (market_price : float) : json :=
  JObj [("from", JStr from);
        ("till", JStr till);
        ("marketPrice", JNum market_price);
        ("marketPriceTax", JNum 0);
        ("sourcingMarkupPrice", JNum 0);
        ("energyTaxPrice", JNum 0)].

Definition one_hour : list json :=
  [record "2023-01-01T00:00:00.000Z" "2023-01-01T01:00:00.000Z" 2].

(** A price response without the electricity series. *)
Definition gas_only : json :=
  JObj [("data", JObj [("marketPricesGas", JList one_hour)])].

(** A price response without the gas series. *)
Definition electricity_only : json :=
  JObj [("data", JObj [("marketPricesElectricity", JList one_hour)])].

End Responses.

(** C3. When the error list of a price response is present and the message
    of its first entry starts with "No marketprices found for segment",
    [MarketPrices.from_dict] raises nothing and returns market prices
    whose electricity series and gas series are both empty. *)
Theorem from_dict_no_prices_is_empty :
  forall (parse : json -> result datetime) (data e0 : json)
         (rest : list json) (message : string),
    Json.get data "errors" = Ok (JList (e0 :: rest)) ->
    Json.subscript e0 "message" = Ok (JStr message) ->
    String.prefix "No marketprices found for segment" message = true ->
    MarketPrices.from_dict parse data
    = Ok (mk_MarketPrices (mk_PriceData []) (mk_PriceData []))
    /\ exists prices,
         MarketPrices.from_dict parse data = Ok prices
         /\ PriceData.all (electricity prices) = []
         /\ PriceData.all (gas prices) = [].
Proof.
  intros parse data e0 rest message Herrors Hmessage Hprefix.
  assert (H : MarketPrices.from_dict parse data
              = Ok (mk_MarketPrices (mk_PriceData []) (mk_PriceData []))).
  { unfold MarketPrices.from_dict. rewrite Herrors. cbn.
    rewrite Hmessage. cbn. rewrite Hprefix. reflexivity. }
  split; [exact H|].
  eexists. split; [exact H|]. split; reflexivity.
Qed.

Lemma from_dict_no_prices_is_empty_witness :
  Json.get Responses.no_prices "errors"
  = Ok (JList
          [JObj [("message", JStr "No marketprices found for segment A")]])
  /\ Json.subscript
       (JObj [("message", JStr "No marketprices found for segment A")])
       "message"
     = Ok (JStr "No marketprices found for segment A")
  /\ String.prefix "No marketprices found for segment"
       "No marketprices found for segment A" = true
  /\ MarketPrices.from_dict Reference.iso_parse Responses.no_prices
     = Ok (mk_MarketPrices (mk_PriceData []) (mk_PriceData [])).
Proof.
  split; [reflexivity|]. split; [reflexivity|]. split; [reflexivity|].
  apply (from_dict_no_prices_is_empty Reference.iso_parse Responses.no_prices
           (JObj [("message", JStr "No marketprices found for segment A")])
           [] "No marketprices found for segment A");
    reflexivity.
Defined.

(** Another first message is raised as a [RequestException]. *)
Example from_dict_other_error :
  MarketPrices.from_dict Reference.iso_parse Responses.not_authorised
  = Raise (RequestException [JStr "Something went wrong"]).
Proof. reflexivity. Qed.

(** The loop over the error list raises [AuthException] at the first entry
    with the not-authorised message, when the entries before it carry a
    message. *)
Lemma raise_if_not_authorised_found (pre : list json) :
  forall (e : json) (post : list json),
    Forall (fun x => exists m, Json.subscript x "message" = Ok m) pre ->
    Json.subscript e "message" = Ok (JStr "user-error:auth-not-authorised") ->
    FrankEnergie.raise_if_not_authorised (pre ++ e :: post)
    = Raise (AuthException []).
Proof.
  induction pre as [|x pre IH]; intros e post Hpre He; cbn.
  - rewrite He. reflexivity.
  - apply Forall_cons_iff in Hpre as [[m Hm] Hpre].
    rewrite Hm. cbn.
    destruct (Json.eq_str m "user-error:auth-not-authorised");
      [reflexivity|].
    apply IH; assumption.
Qed.

(** C4. When the error list of a response holds an entry whose message is
    "user-error:auth-not-authorised", and the entries before it carry a
    message as error entries do, the response handling of [_query] raises
    [AuthException]. *)
Theorem query_raises_AuthException :
  forall (response : json) (pre : list json) (e : json) (post : list json),
    Json.get response "errors" = Ok (JList (pre ++ e :: post)) ->
    Forall (fun x => exists m, Json.subscript x "message" = Ok m) pre ->
    Json.subscript e "message" = Ok (JStr "user-error:auth-not-authorised") ->
    FrankEnergie._query response = Raise (AuthException [])
    /\ raises (FrankEnergie._query response) "AuthException".
Proof.
  intros response pre e post Herrors Hpre He.
  assert (H : FrankEnergie._query response = Raise (AuthException [])).
  { unfold FrankEnergie._query. rewrite Herrors. cbn [bind].
    replace (Json.truthy (JList (pre ++ e :: post))) with true
      by (destruct pre; reflexivity).
    cbn [Json.iter bind].
    rewrite (raise_if_not_authorised_found pre e post Hpre He).
    reflexivity. }
  split; [exact H|]. exists (AuthException []). split; [exact H|reflexivity].
Qed.

Lemma query_raises_AuthException_witness :
  Json.get Responses.not_authorised "errors"
  = Ok (JList
          ([JObj [("message", JStr "Something went wrong")]]
           ++ JObj [("message", JStr "user-error:auth-not-authorised");
                    ("path", JList [JStr "me"])]
           :: []))
  /\ Forall (fun x => exists m, Json.subscript x "message" = Ok m)
       [JObj [("message", JStr "Something went wrong")]]
  /\ Json.subscript
       (JObj [("message", JStr "user-error:auth-not-authorised");
              ("path", JList [JStr "me"])])
       "message"
     = Ok (JStr "user-error:auth-not-authorised")
  /\ FrankEnergie._query Responses.not_authorised = Raise (AuthException [])
  /\ raises (FrankEnergie._query Responses.not_authorised) "AuthException".
Proof.
  assert (Hpre : Forall
                   (fun x => exists m, Json.subscript x "message" = Ok m)
                   [JObj [("message", JStr "Something went wrong")]]).
  { constructor; [|constructor].
    exists (JStr "Something went wrong"). reflexivity. }
  split; [reflexivity|]. split; [exact Hpre|]. split; [reflexivity|].
  exact (query_raises_AuthException Responses.not_authorised
           [JObj [("message", JStr "Something went wrong")]]
           (JObj [("message", JStr "user-error:auth-not-authorised");
                  ("path", JList [JStr "me"])])
           [] eq_refl Hpre eq_refl).
Defined.

(** Without an error list, or with an empty one, the response is
    returned. *)
Lemma query_returns_response (response errors : json) :
  Json.get response "errors" = Ok errors ->
  Json.truthy errors = false ->
  FrankEnergie._query response = Ok response.
Proof.
  intros Herrors Hfalse. unfold FrankEnergie._query.
  rewrite Herrors. cbn. rewrite Hfalse. reflexivity.
Qed.

(** The member [key] of a data object as [payload.get(key)] gives it. *)
Definition member (key : string) (members : list (string * json)) : json :=
  match Json.lookup key members with
  | Some v => v
  | None => JNull
  end.

(** C10. In a price response without errors whose data object is not
    empty, a missing "marketPricesElectricity" member raises nothing and
    gives the empty electricity series: [MarketPrices.from_dict] returns
    the market prices of that empty series and of the gas series read
    from the other member, and raises only what reading that member
    raises. The same holds of a missing "marketPricesGas" member. *)
Theorem from_dict_missing_series_is_empty :
  forall (parse : json -> result datetime) (data errors : json)
         (members : list (string * json)),
    Json.get data "errors" = Ok errors ->
    Json.truthy errors = false ->
    Json.get data "data" = Ok (JObj members) ->
    members <> [] ->
    (Json.lookup "marketPricesElectricity" members = None ->
     MarketPrices.from_dict parse data
     = match PriceData.__init__ parse (member "marketPricesGas" members) with
       | Ok gas => Ok (mk_MarketPrices (mk_PriceData []) gas)
       | Raise e => Raise e
       end)
    /\ (Json.lookup "marketPricesGas" members = None ->
        MarketPrices.from_dict parse data
        = match PriceData.__init__ parse
                  (member "marketPricesElectricity" members) with
          | Ok electricity =>
              Ok (mk_MarketPrices electricity (mk_PriceData []))
          | Raise e => Raise e
          end).
Proof.
  intros parse data errors members Herrors Hfalse Hdata Hmembers.
  assert (Htruthy : Json.truthy (JObj members) = true)
    by (destruct members; [congruence|reflexivity]).
  assert (Hget : forall key,
             Json.get (JObj members) key = Ok (member key members)).
  { intros key. unfold member. cbn.
    destruct (Json.lookup key members); reflexivity. }
  unfold MarketPrices.from_dict.
  rewrite Herrors. cbn [bind]. rewrite Hfalse, Hdata. cbn [bind].
  rewrite Htruthy. cbn [negb]. rewrite !Hget. cbn [bind].
  split; intros Hmissing.
  - unfold member at 1. rewrite Hmissing.
    cbn [bind PriceData.__init__]. reflexivity.
  - unfold member at 2. rewrite Hmissing. cbn [bind PriceData.__init__].
    destruct (PriceData.__init__ parse _); reflexivity.
Qed.

Lemma from_dict_missing_series_is_empty_witness :
  Json.get Responses.gas_only "errors" = Ok JNull
  /\ Json.truthy JNull = false
  /\ Json.get Responses.gas_only "data"
     = Ok (JObj [("marketPricesGas", JList Responses.one_hour)])
  /\ [("marketPricesGas", JList Responses.one_hour)] <> []
  /\ Json.lookup "marketPricesElectricity"
       [("marketPricesGas", JList Responses.one_hour)] = None
  /\ MarketPrices.from_dict Reference.iso_parse Responses.gas_only
     = Ok (mk_MarketPrices (mk_PriceData [])
             (mk_PriceData [Examples.hourly 0 2])).
Proof.
  assert (Hmembers : [("marketPricesGas", JList Responses.one_hour)] <> [])
    by discriminate.
  split; [reflexivity|]. split; [reflexivity|]. split; [reflexivity|].
  split; [exact Hmembers|]. split; [reflexivity|].
  rewrite (proj1 (from_dict_missing_series_is_empty Reference.iso_parse
                    Responses.gas_only JNull
                    [("marketPricesGas", JList Responses.one_hour)]
                    eq_refl eq_refl eq_refl Hmembers) eq_refl).
  vm_compute. reflexivity.
Defined.

(** With both members missing both series are empty; with the electricity
    member alone the gas series is empty. *)
Example from_dict_one_series :
  MarketPrices.from_dict Reference.iso_parse
    (JObj [("data", JObj [("marketPrices", JNull)])])
  = Ok (mk_MarketPrices (mk_PriceData []) (mk_PriceData []))
  /\ MarketPrices.from_dict Reference.iso_parse Responses.electricity_only
     = Ok (mk_MarketPrices (mk_PriceData [Examples.hourly 0 2])
             (mk_PriceData [])).
Proof. vm_compute. split; reflexivity. Qed.

(** A record of the other series that cannot be read raises its own
    exception, here the [KeyError] of the missing "from". *)
Example from_dict_bad_record :
  MarketPrices.from_dict Reference.iso_parse
    (JObj [("data", JObj [("marketPricesGas", JList [JObj []])])])
  = Raise (KeyError "from").
Proof. reflexivity. Qed.

(** A data object that is empty, or missing, is an unexpected response. *)
Example from_dict_unexpected_response :
  MarketPrices.from_dict Reference.iso_parse (JObj [("data", JObj [])])
  = Raise (RequestException [JStr "Unexpected response"])
  /\ MarketPrices.from_dict Reference.iso_parse (JObj [])
     = Raise (RequestException [JStr "Unexpected response"]).
Proof. split; reflexivity. Qed.

(** ** The session of the client *)

(** C9. [is_authenticated] is true exactly when the client holds a token
    pair, an [Authentication]. The constructor sets the pair exactly when
    a token is given for it: a client constructed with an auth token or a
    refresh token is authenticated and holds the pair of the two
    arguments, and a client constructed with neither holds no pair and is
    not authenticated. *)
Theorem is_authenticated_iff_auth_set :
  forall (ClientSession : Type),
    (forall self : FrankEnergie ClientSession,
        FrankEnergie.is_authenticated self = true
        <-> exists pair, _auth self = Some pair)
    /\ (forall (clientsession : option ClientSession)
               auth_token refresh_token country,
           FrankEnergie.is_authenticated
             (FrankEnergie.__init__ clientsession
                auth_token refresh_token country) = true
           <-> auth_token <> None \/ refresh_token <> None)
    /\ (forall (clientsession : option ClientSession)
               auth_token refresh_token country,
           auth_token <> None \/ refresh_token <> None ->
           _auth (FrankEnergie.__init__ clientsession
                    auth_token refresh_token country)
           = Some (mk_Authentication (FrankEnergie.value auth_token)
                     (FrankEnergie.value refresh_token)))
    /\ (forall (clientsession : option ClientSession) country,
           _auth (FrankEnergie.__init__ clientsession None None country)
           = None
           /\ FrankEnergie.is_authenticated
                (FrankEnergie.__init__ clientsession None None country)
              = false).
Proof.
  intros ClientSession. split; [|split; [|split]].
  - intros self. unfold FrankEnergie.is_authenticated.
    destruct (_auth self) as [pair|]; cbn.
    + split; [intros _; exists pair; reflexivity|reflexivity].
    + split; [discriminate|intros [pair H]; discriminate].
  - intros clientsession auth_token refresh_token country.
    unfold FrankEnergie.is_authenticated, FrankEnergie.__init__. cbn.
    destruct auth_token, refresh_token; cbn; split; intros H;
      first [ reflexivity
            | left; discriminate
            | right; discriminate
            | discriminate
            | destruct H as [H|H]; congruence ].
  - intros clientsession auth_token refresh_token country H.
    unfold FrankEnergie.__init__. cbn.
    destruct auth_token, refresh_token; cbn; try reflexivity.
    destruct H as [H|H]; congruence.
  - intros clientsession country. split; reflexivity.
Qed.

(** A client given only an auth token holds the pair of that token and
    [None]. *)
Example is_authenticated_one_token :
  FrankEnergie.is_authenticated
    (FrankEnergie.__init__ (@None unit) (Some "token") None (Some Netherlands))
  = true
  /\ FrankEnergie.is_authenticated
       (FrankEnergie.__init__ (@None unit) None None (Some Netherlands))
     = false.
Proof. split; reflexivity. Qed.

(** * Further properties *)

(** ** The mappings of the other responses *)

Lemma get_member (members : list (string * json)) (key : string) :
  Json.get (JObj members) key = Ok (member key members).
Proof.
  unfold member. cbn. destruct (Json.lookup key members); reflexivity.
Qed.

(** X1. A response with an error list that is not empty is never mapped to
    a result: the login mapping raises [AuthException] and the user,
    month summary and invoices mappings raise [RequestException], each
    with the message of the first entry, whatever the data of the response
    is. *)
Theorem error_list_raises_first_message :
  forall (parse : json -> result datetime) (data e0 : json)
         (rest : list json) (message : json),
    Json.get data "errors" = Ok (JList (e0 :: rest)) ->
    Json.subscript e0 "message" = Ok message ->
    Authentication.from_dict data = Raise (AuthException [message])
    /\ User.from_dict data = Raise (RequestException [message])
    /\ MonthSummary.from_dict data = Raise (RequestException [message])
    /\ Invoices.from_dict parse data = Raise (RequestException [message]).
Proof.
  intros parse data e0 rest message Herrors Hmessage.
  unfold Authentication.from_dict, User.from_dict, MonthSummary.from_dict,
    Invoices.from_dict.
  rewrite Herrors. cbn. rewrite Hmessage. cbn. auto.
Qed.

Lemma error_list_raises_first_message_witness :
  Json.get Responses.not_authorised "errors"
  = Ok (JList
          [JObj [("message", JStr "Something went wrong")];
           JObj [("message", JStr "user-error:auth-not-authorised");
                 ("path", JList [JStr "me"])]])
  /\ Json.subscript (JObj [("message", JStr "Something went wrong")])
       "message"
     = Ok (JStr "Something went wrong")
  /\ Authentication.from_dict Responses.not_authorised
     = Raise (AuthException [JStr "Something went wrong"])
  /\ User.from_dict Responses.not_authorised
     = Raise (RequestException [JStr "Something went wrong"])
  /\ MonthSummary.from_dict Responses.not_authorised
     = Raise (RequestException [JStr "Something went wrong"])
  /\ Invoices.from_dict Reference.iso_parse Responses.not_authorised
     = Raise (RequestException [JStr "Something went wrong"]).
Proof.
  split; [reflexivity|]. split; [reflexivity|].
  exact (error_list_raises_first_message Reference.iso_parse
           Responses.not_authorised
           (JObj [("message", JStr "Something went wrong")])
           [JObj [("message", JStr "user-error:auth-not-authorised");
                  ("path", JList [JStr "me"])]]
           (JStr "Something went wrong") eq_refl eq_refl).
Defined.

(** X2. Without errors, a response whose data is an object without the
    payload of the operation (or with an empty or null one), and a
    response without data at all, is an unexpected response: an
    [AuthException] of the login mapping, which looks for "login" and
    "renewToken", and a [RequestException] of the user, month summary and
    invoices mappings. *)
Theorem no_payload_is_unexpected_response :
  forall (parse : json -> result datetime) (data errors : json)
         (members : list (string * json)),
    Json.get data "errors" = Ok errors ->
    Json.truthy errors = false ->
    Json.get_default data "data" (JObj []) = Ok (JObj members) ->
    (Json.truthy (member "login" members) = false ->
     Json.truthy (member "renewToken" members) = false ->
     Authentication.from_dict data
     = Raise (AuthException [JStr "Unexpected response"]))
    /\ (Json.truthy (member "me" members) = false ->
        User.from_dict data
        = Raise (RequestException [JStr "Unexpected response"]))
    /\ (Json.truthy (member "monthSummary" members) = false ->
        MonthSummary.from_dict data
        = Raise (RequestException [JStr "Unexpected response"]))
    /\ (Json.truthy (member "invoices" members) = false ->
        Invoices.from_dict parse data
        = Raise (RequestException [JStr "Unexpected response"])).
Proof.
  intros parse data errors members Herrors Hfalse Hdata.
  unfold Authentication.from_dict, User.from_dict, MonthSummary.from_dict,
    Invoices.from_dict.
  rewrite Herrors. cbn [bind]. rewrite Hfalse, Hdata. cbn [bind].
  rewrite !get_member. cbn [bind].
  repeat split.
  - intros -> ->. reflexivity.
  - intros ->. reflexivity.
  - intros ->. reflexivity.
  - intros ->. reflexivity.
Qed.

Lemma no_payload_is_unexpected_response_witness :
  Json.get (JObj []) "errors" = Ok JNull
  /\ Json.truthy JNull = false
  /\ Json.get_default (JObj []) "data" (JObj []) = Ok (JObj [])
  /\ Authentication.from_dict (JObj [])
     = Raise (AuthException [JStr "Unexpected response"])
  /\ User.from_dict (JObj [])
     = Raise (RequestException [JStr "Unexpected response"])
  /\ MonthSummary.from_dict (JObj [])
     = Raise (RequestException [JStr "Unexpected response"])
  /\ Invoices.from_dict Reference.iso_parse (JObj [])
     = Raise (RequestException [JStr "Unexpected response"]).
Proof.
  split; [reflexivity|]. split; [reflexivity|]. split; [reflexivity|].
  destruct (no_payload_is_unexpected_response Reference.iso_parse
              (JObj []) JNull [] eq_refl eq_refl eq_refl)
    as (Hauth & Huser & Hmonth & Hinvoices).
  split; [exact (Hauth eq_refl eq_refl)|].
  split; [exact (Huser eq_refl)|].
  split; [exact (Hmonth eq_refl)|exact (Hinvoices eq_refl)].
Defined.

Definition is_object (v : json) : bool :=
  match v with
  | JObj _ => true
  | _ => false
  end.

(** X3. Without errors, a response whose "data" member is present and is
    not an object, a null above all, makes the login, user, month summary
    and invoices mappings raise [AttributeError], not their own
    exception: the default of [data.get("data", {})] stands in for an
    absent member only. The price mapping reads the member without the
    chained [get] and raises [RequestException] on the null. *)
Theorem data_not_an_object_raises_AttributeError :
  forall (parse : json -> result datetime) (data errors d : json),
    Json.get data "errors" = Ok errors ->
    Json.truthy errors = false ->
    Json.get_default data "data" (JObj []) = Ok d ->
    is_object d = false ->
    Authentication.from_dict data = Raise AttributeError
    /\ User.from_dict data = Raise AttributeError
    /\ MonthSummary.from_dict data = Raise AttributeError
    /\ Invoices.from_dict parse data = Raise AttributeError
    /\ (d = JNull ->
        MarketPrices.from_dict parse data
        = Raise (RequestException [JStr "Unexpected response"])).
Proof.
  intros parse data errors d Herrors Hfalse Hdata Hobj.
  assert (Hget : Json.get d "login" = Raise AttributeError
                 /\ forall key, Json.get d key = Raise AttributeError).
  { destruct d; try discriminate; split; reflexivity. }
  destruct Hget as [_ Hget].
  unfold Authentication.from_dict, User.from_dict, MonthSummary.from_dict,
    Invoices.from_dict, MarketPrices.from_dict.
  rewrite Herrors. cbn [bind]. rewrite Hfalse, Hdata. cbn [bind].
  rewrite !Hget. cbn [bind].
  repeat (split; [reflexivity|]).
  intros ->.
  assert (Hnull : Json.get data "data" = Ok JNull).
  { destruct data; try discriminate. cbn in Hdata |- *.
    destruct (Json.lookup "data" members); [exact Hdata|discriminate]. }
  rewrite Hnull. reflexivity.
Qed.

Lemma data_not_an_object_raises_AttributeError_witness :
  Json.get (JObj [("data", JNull)]) "errors" = Ok JNull
  /\ Json.truthy JNull = false
  /\ Json.get_default (JObj [("data", JNull)]) "data" (JObj []) = Ok JNull
  /\ is_object JNull = false
  /\ Authentication.from_dict (JObj [("data", JNull)]) = Raise AttributeError
  /\ User.from_dict (JObj [("data", JNull)]) = Raise AttributeError
  /\ MonthSummary.from_dict (JObj [("data", JNull)]) = Raise AttributeError
  /\ Invoices.from_dict Reference.iso_parse (JObj [("data", JNull)])
     = Raise AttributeError
  /\ MarketPrices.from_dict Reference.iso_parse (JObj [("data", JNull)])
     = Raise (RequestException [JStr "Unexpected response"]).
Proof.
  split; [reflexivity|]. split; [reflexivity|]. split; [reflexivity|].
  split; [reflexivity|].
  destruct (data_not_an_object_raises_AttributeError Reference.iso_parse
              (JObj [("data", JNull)]) JNull JNull
              eq_refl eq_refl eq_refl eq_refl)
    as (Hauth & Huser & Hmonth & Hinvoices & Hprices).
  repeat (split; [assumption|]). exact (Hprices eq_refl).
Defined.

(** [data_without_errors data members]: the response has no error list,
    or an empty one, and its data is the object of [members]. *)
Definition data_without_errors (data : json)
    (members : list (string * json)) : Prop :=
  (exists errors,
      Json.get data "errors" = Ok errors /\ Json.truthy errors = false)
  /\ Json.get_default data "data" (JObj []) = Ok (JObj members).

(** X4. The login mapping reads the tokens from the "login" payload when
    that is an object with members, whatever the "renewToken" payload is,
    and from the "renewToken" payload when the "login" payload is missing
    or empty; a token that the payload lacks is [None]. *)
Theorem login_payload_takes_precedence :
  forall (data : json) (members payload : list (string * json)),
    data_without_errors data members ->
    payload <> [] ->
    (member "login" members = JObj payload ->
     Authentication.from_dict data
     = Ok (mk_Authentication (member "authToken" payload)
             (member "refreshToken" payload)))
    /\ (Json.truthy (member "login" members) = false ->
        member "renewToken" members = JObj payload ->
        Authentication.from_dict data
        = Ok (mk_Authentication (member "authToken" payload)
                (member "refreshToken" payload)))
    /\ (forall key,
           Json.lookup key payload = None -> member key payload = JNull).
Proof.
  intros data members payload [(errors & Herrors & Hfalse) Hdata] Hpayload.
  assert (Htruthy : Json.truthy (JObj payload) = true)
    by (destruct payload; [congruence|reflexivity]).
  unfold Authentication.from_dict.
  rewrite Herrors. cbn [bind]. rewrite Hfalse, Hdata. cbn [bind].
  rewrite !get_member. cbn [bind]. unfold Json.or.
  split; [|split].
  - intros Hlogin. rewrite Hlogin, Htruthy. cbn [negb andb].
    rewrite !get_member. reflexivity.
  - intros Hlogin Hrenew. rewrite Hlogin, Hrenew, Htruthy. cbn [negb andb].
    rewrite !get_member. reflexivity.
  - intros key Hkey. unfold member. rewrite Hkey. reflexivity.
Qed.

Module MoreResponses.

(** A response with both payloads. *)
Definition both_payloads : json :=
  JObj [("data",
         JObj [("renewToken",
                JObj [("authToken", JStr "a2"); ("refreshToken", JStr "r2")]);
               ("login", JObj [("authToken", JStr "a1")])])].

(** A month summary without the actual costs. *)
Definition summary_without_actual : json :=
  JObj [("data",
         JObj [("monthSummary",
                JObj [("expectedCostsUntilLastMeterReadingDate", JNum 12);
                      ("expectedCosts", JNum 40)])])].

(** Invoices with a null previous period, a current period and no
    upcoming period. *)
Definition current_invoice_only : json :=
  JObj [("data",
         JObj [("invoices",
                JObj [("previousPeriodInvoice", JNull);
                      ("currentPeriodInvoice",
                       JObj [("StartDate", JStr "2023-01-01T00:00:00.000Z");
                             ("PeriodDescription", JStr "January 2023");
                             ("TotalAmount", JNum 125)])])])].

End MoreResponses.

Lemma login_payload_takes_precedence_witness :
  data_without_errors MoreResponses.both_payloads
    [("renewToken",
      JObj [("authToken", JStr "a2"); ("refreshToken", JStr "r2")]);
     ("login", JObj [("authToken", JStr "a1")])]
  /\ [("authToken", JStr "a1")] <> []
  /\ Authentication.from_dict MoreResponses.both_payloads
     = Ok (mk_Authentication (JStr "a1") JNull).
Proof.
  assert (Hdata : data_without_errors MoreResponses.both_payloads
                    [("renewToken",
                      JObj [("authToken", JStr "a2");
                            ("refreshToken", JStr "r2")]);
                     ("login", JObj [("authToken", JStr "a1")])]).
  { split; [exists JNull; split; reflexivity|reflexivity]. }
  assert (Hpayload : [("authToken", JStr "a1")] <> []) by discriminate.
  split; [exact Hdata|]. split; [exact Hpayload|].
  exact (proj1 (login_payload_takes_precedence MoreResponses.both_payloads
                  _ [("authToken", JStr "a1")] Hdata Hpayload) eq_refl).
Defined.

(** X5. The user mapping validates nothing of a payload that is an object
    with members: it returns for every such payload, and an attribute the
    payload lacks is [None]. *)
Theorem user_payload_is_not_validated :
  forall (data : json) (members payload : list (string * json)),
    data_without_errors data members ->
    member "me" members = JObj payload ->
    payload <> [] ->
    User.from_dict data
    = Ok (mk_User (member "connectionsStatus" payload)
            (member "firstMeterReadingDate" payload)
            (member "lastMeterReadingDate" payload)
            (member "advancedPaymentAmount" payload)
            (member "hasCO2Compensation" payload))
    /\ forall key,
         Json.lookup key payload = None -> member key payload = JNull.
Proof.
  intros data members payload [(errors & Herrors & Hfalse) Hdata]
    Hme Hpayload.
  assert (Htruthy : Json.truthy (JObj payload) = true)
    by (destruct payload; [congruence|reflexivity]).
  split.
  - unfold User.from_dict.
    rewrite Herrors. cbn [bind]. rewrite Hfalse, Hdata. cbn [bind].
    rewrite get_member. cbn [bind]. rewrite Hme, Htruthy. cbn [negb].
    rewrite !get_member. reflexivity.
  - intros key Hkey. unfold member. rewrite Hkey. reflexivity.
Qed.

Lemma user_payload_is_not_validated_witness :
  data_without_errors
    (JObj [("data", JObj [("me", JObj [("id", JStr "u1")])])])
    [("me", JObj [("id", JStr "u1")])]
  /\ [("id", JStr "u1")] <> []
  /\ User.from_dict
       (JObj [("data", JObj [("me", JObj [("id", JStr "u1")])])])
     = Ok (mk_User JNull JNull JNull JNull JNull).
Proof.
  assert (Hdata : data_without_errors
                    (JObj [("data", JObj [("me", JObj [("id", JStr "u1")])])])
                    [("me", JObj [("id", JStr "u1")])]).
  { split; [exists JNull; split; reflexivity|reflexivity]. }
  assert (Hpayload : [("id", JStr "u1")] <> []) by discriminate.
  split; [exact Hdata|]. split; [exact Hpayload|].
  exact (proj1 (user_payload_is_not_validated _ _ [("id", JStr "u1")]
                  Hdata eq_refl Hpayload)).
Defined.

(** X6. The month summary mapping returns for every payload that is an
    object with members. On the summary it returns, the difference until
    the last meter reading date is the actual costs minus the expected
    costs, rounded to 2 decimals, when both are numbers, and raises
    [TypeError] when the payload lacks one of the two. *)
Theorem month_summary_difference :
  forall (round : float -> Z -> float) (data : json)
         (members payload : list (string * json)),
    data_without_errors data members ->
    member "monthSummary" members = JObj payload ->
    payload <> [] ->
    exists summary,
      MonthSummary.from_dict data = Ok summary
      /\ (forall actual expected,
             member "actualCostsUntilLastMeterReadingDate" payload
             = JNum actual ->
             member "expectedCostsUntilLastMeterReadingDate" payload
             = JNum expected ->
             MonthSummary.differenceUntilLastMeterReadingDate round summary
             = Ok (round (actual - expected)%float 2))
      /\ (Json.lookup "actualCostsUntilLastMeterReadingDate" payload = None
          \/ Json.lookup "expectedCostsUntilLastMeterReadingDate" payload
             = None ->
          MonthSummary.differenceUntilLastMeterReadingDate round summary
          = Raise TypeError).
Proof.
  intros round data members payload [(errors & Herrors & Hfalse) Hdata]
    Hsummary Hpayload.
  assert (Htruthy : Json.truthy (JObj payload) = true)
    by (destruct payload; [congruence|reflexivity]).
  eexists. split.
  - unfold MonthSummary.from_dict.
    rewrite Herrors. cbn [bind]. rewrite Hfalse, Hdata. cbn [bind].
    rewrite get_member. cbn [bind]. rewrite Hsummary, Htruthy. cbn [negb].
    rewrite !get_member. reflexivity.
  - unfold MonthSummary.differenceUntilLastMeterReadingDate.
    cbn [actualCostsUntilLastMeterReadingDate
           expectedCostsUntilLastMeterReadingDate].
    split.
    + intros actual expected -> ->. reflexivity.
    + unfold member, Builtins.sub.
      intros [-> | ->]; cbn; [reflexivity|].
      destruct (Builtins.operand _); reflexivity.
Qed.

Lemma month_summary_difference_witness :
  data_without_errors MoreResponses.summary_without_actual
    [("monthSummary",
      JObj [("expectedCostsUntilLastMeterReadingDate", JNum 12);
            ("expectedCosts", JNum 40)])]
  /\ exists summary,
       MonthSummary.from_dict MoreResponses.summary_without_actual
       = Ok summary
       /\ MonthSummary.differenceUntilLastMeterReadingDate
            Reference.py_round summary
          = Raise TypeError.
Proof.
  assert (Hdata : data_without_errors MoreResponses.summary_without_actual
                    [("monthSummary",
                      JObj [("expectedCostsUntilLastMeterReadingDate",
                             JNum 12);
                            ("expectedCosts", JNum 40)])]).
  { split; [exists JNull; split; reflexivity|reflexivity]. }
  split; [exact Hdata|].
  destruct (month_summary_difference Reference.py_round
              MoreResponses.summary_without_actual _
              [("expectedCostsUntilLastMeterReadingDate", JNum 12);
               ("expectedCosts", JNum 40)]
              Hdata eq_refl ltac:(discriminate))
    as (summary & Hsummary & _ & Hmissing).
  exists summary. split; [exact Hsummary|].
  apply Hmissing. left. reflexivity.
Defined.

(** [period_read parse v o]: the invoice [o] is what the member [v] of the
    payload holds: none for a null, and otherwise an object whose
    "StartDate" parses to the start date and whose other two members are
    the other two attributes. *)
Definition period_read (parse : json -> result datetime) (v : json)
    (o : option Invoice) : Prop :=
  match o with
  | None => v = JNull
  | Some invoice =>
      exists m,
        v = JObj m
        /\ parse (member "StartDate" m) = Ok (StartDate invoice)
        /\ PeriodDescription invoice = member "PeriodDescription" m
        /\ TotalAmount invoice = member "TotalAmount" m
  end.

Lemma Invoice_from_dict_read parse v o :
  Invoice.from_dict parse v = Ok o -> period_read parse v o.
Proof.
  unfold Invoice.from_dict.
  destruct v as [| | | | |m]; try (cbn; discriminate).
  - intros H. injection H as <-. reflexivity.
  - rewrite !get_member. cbn [bind].
    destruct (parse (member "StartDate" m)) as [d|] eqn:E; [|discriminate].
    intros H. injection H as <-. exists m. cbn. auto.
Qed.

(** X7. The invoices mapping returns the three periods of a payload that
    is an object with members: a period the payload lacks, or holds as
    null, is [None], with no call of the date parser; a period it holds is
    an invoice with the parsed "StartDate" and the two other members. *)
Theorem invoices_periods :
  forall (parse : json -> result datetime) (data : json)
         (members payload : list (string * json)),
    data_without_errors data members ->
    member "invoices" members = JObj payload ->
    payload <> [] ->
    (member "previousPeriodInvoice" payload = JNull ->
     member "currentPeriodInvoice" payload = JNull ->
     member "upcomingPeriodInvoice" payload = JNull ->
     Invoices.from_dict parse data = Ok (mk_Invoices None None None))
    /\ (forall invoices,
           Invoices.from_dict parse data = Ok invoices ->
           period_read parse (member "previousPeriodInvoice" payload)
             (previousPeriodInvoice invoices)
           /\ period_read parse (member "currentPeriodInvoice" payload)
                (currentPeriodInvoice invoices)
           /\ period_read parse (member "upcomingPeriodInvoice" payload)
                (upcomingPeriodInvoice invoices)).
Proof.
  intros parse data members payload [(errors & Herrors & Hfalse) Hdata]
    Hinvoices Hpayload.
  assert (Htruthy : Json.truthy (JObj payload) = true)
    by (destruct payload; [congruence|reflexivity]).
  unfold Invoices.from_dict.
  rewrite Herrors. cbn [bind]. rewrite Hfalse, Hdata. cbn [bind].
  rewrite get_member. cbn [bind]. rewrite Hinvoices, Htruthy. cbn [negb].
  rewrite !get_member. cbn [bind].
  split.
  - intros -> -> ->. reflexivity.
  - intros invoices.
    destruct (Invoice.from_dict parse
                (member "previousPeriodInvoice" payload))
      as [p|] eqn:Ep; [|discriminate].
    destruct (Invoice.from_dict parse
                (member "currentPeriodInvoice" payload))
      as [c|] eqn:Ec; [|discriminate].
    destruct (Invoice.from_dict parse
                (member "upcomingPeriodInvoice" payload))
      as [u|] eqn:Eu; [|discriminate].
    cbn [bind]. intros H. injection H as <-. cbn.
    auto using Invoice_from_dict_read.
Qed.

Lemma invoices_periods_witness :
  data_without_errors MoreResponses.current_invoice_only
    [("invoices",
      JObj [("previousPeriodInvoice", JNull);
            ("currentPeriodInvoice",
             JObj [("StartDate", JStr "2023-01-01T00:00:00.000Z");
                   ("PeriodDescription", JStr "January 2023");
                   ("TotalAmount", JNum 125)])])]
  /\ Invoices.from_dict Reference.iso_parse
       MoreResponses.current_invoice_only
     = Ok (mk_Invoices None
             (Some (mk_Invoice (mk_datetime Examples.day0 0)
                      (JStr "January 2023") (JNum 125)))
             None)
  /\ period_read Reference.iso_parse JNull None.
Proof.
  assert (Hdata : data_without_errors MoreResponses.current_invoice_only
                    [("invoices",
                      JObj [("previousPeriodInvoice", JNull);
                            ("currentPeriodInvoice",
                             JObj [("StartDate",
                                    JStr "2023-01-01T00:00:00.000Z");
                                   ("PeriodDescription",
                                    JStr "January 2023");
                                   ("TotalAmount", JNum 125)])])]).
  { split; [exists JNull; split; reflexivity|reflexivity]. }
  assert (Hreturns : Invoices.from_dict Reference.iso_parse
                       MoreResponses.current_invoice_only
                     = Ok (mk_Invoices None
                             (Some (mk_Invoice (mk_datetime Examples.day0 0)
                                      (JStr "January 2023") (JNum 125)))
                             None))
    by (vm_compute; reflexivity).
  split; [exact Hdata|]. split; [exact Hreturns|].
  exact (proj1 (proj2 (invoices_periods Reference.iso_parse
                         MoreResponses.current_invoice_only _ _
                         Hdata eq_refl ltac:(discriminate))
                 _ Hreturns)).
Defined.

(** ** Reading and combining series *)

Lemma map_result_Ok {A B : Type} (f : A -> result B) (l : list A) :
  forall ys, map_result f l = Ok ys <-> Forall2 (fun x y => f x = Ok y) l ys.
Proof.
  induction l as [|x rest IH]; intros ys; cbn.
  - split.
    + intros H. injection H as <-. constructor.
    + intros H. inversion H. reflexivity.
  - split.
    + destruct (f x) as [y|] eqn:E; cbn; [|discriminate].
      destruct (map_result f rest) as [ys'|] eqn:E'; cbn; [|discriminate].
      intros H. injection H as <-. constructor; [exact E|].
      apply IH. reflexivity.
    + intros H. inversion H as [|? y ? ys' Hy Hrest]; subst.
      rewrite Hy. cbn. apply IH in Hrest. rewrite Hrest. reflexivity.
Qed.

Lemma map_result_Raise {A B : Type} (f : A -> result B) (pre : list A) :
  forall x post e,
    Forall (fun x => exists y, f x = Ok y) pre ->
    f x = Raise e ->
    map_result f (pre ++ x :: post) = Raise e.
Proof.
  induction pre as [|z pre IH]; intros x post e Hpre Hx; cbn.
  - rewrite Hx. reflexivity.
  - apply Forall_cons_iff in Hpre as [[y Hy] Hpre].
    rewrite Hy. cbn. rewrite (IH x post e Hpre Hx). reflexivity.
Qed.

(** X8. A series read from a list of records has one entry for each
    record, in the order of the records: the reading returns exactly when
    every record reads as a price entry, and otherwise raises what the
    first record that does not read raises. *)
Theorem series_of_records :
  forall (parse : json -> result datetime) (records : list json),
    (forall pd,
        PriceData.__init__ parse (JList records) = Ok pd
        <-> Forall2 (fun record p => Price.__init__ parse record = Ok p)
              records (PriceData.all pd))
    /\ (forall pd,
           PriceData.__init__ parse (JList records) = Ok pd ->
           List.length (PriceData.all pd) = List.length records)
    /\ (forall pre record post e,
           records = pre ++ record :: post ->
           Forall (fun r => exists p, Price.__init__ parse r = Ok p) pre ->
           Price.__init__ parse record = Raise e ->
           PriceData.__init__ parse (JList records) = Raise e).
Proof.
  intros parse records.
  assert (Hiff : forall pd,
             PriceData.__init__ parse (JList records) = Ok pd
             <-> Forall2 (fun record p => Price.__init__ parse record = Ok p)
                   records (PriceData.all pd)).
  { intros [prices]. unfold PriceData.__init__, PriceData.all.
    cbn [Json.iter bind price_data].
    rewrite <- map_result_Ok.
    destruct (map_result (Price.__init__ parse) records) as [ys|]; cbn.
    - split; intros H; injection H as ->; reflexivity.
    - split; discriminate. }
  split; [exact Hiff|]. split.
  - intros pd H. apply Hiff in H. symmetry. eapply Forall2_length. exact H.
  - intros pre record post e -> Hpre Hrecord.
    unfold PriceData.__init__. cbn [Json.iter bind].
    rewrite (map_result_Raise _ pre record post e Hpre Hrecord).
    reflexivity.
Qed.

(** Two records read in order, and a record without "till" after a good
    one. *)
Example series_of_two_records :
  PriceData.__init__ Reference.iso_parse
    (JList
       [Responses.record "2023-01-01T00:00:00.000Z"
          "2023-01-01T01:00:00.000Z" 2;
        Responses.record "2023-01-01T01:00:00.000Z"
          "2023-01-01T02:00:00.000Z" 3])
  = Ok (mk_PriceData [Examples.hourly 0 2; Examples.hourly 1 3])
  /\ PriceData.__init__ Reference.iso_parse
       (JList
          [Responses.record "2023-01-01T00:00:00.000Z"
             "2023-01-01T01:00:00.000Z" 2;
           JObj [("from", JStr "2023-01-01T01:00:00.000Z")]])
     = Raise (KeyError "till").
Proof. vm_compute. split; reflexivity. Qed.

(** X9. The entries for today, and the future prices, of a combined
    series are those of the first series followed by those of the second;
    and they are the entries of the series that pass the test, no
    other. *)
Theorem day_and_future_of_combined_series :
  forall (clock : Z) (a b : PriceData),
    PriceData.today clock (PriceData.__add__ a b)
    = PriceData.today clock a ++ PriceData.today clock b
    /\ PriceData.get_future_prices clock (PriceData.__add__ a b)
       = PriceData.get_future_prices clock a
         ++ PriceData.get_future_prices clock b
    /\ (forall p,
           In p (PriceData.today clock a)
           <-> In p (PriceData.all a) /\ Price.for_today clock p = true)
    /\ (forall p,
           In p (PriceData.get_future_prices clock a)
           <-> In p (PriceData.all a) /\ Price.for_future clock p = true).
Proof.
  intros clock a b.
  unfold PriceData.today, PriceData.get_future_prices, PriceData.__add__,
    PriceData.all.
  cbn [price_data].
  split; [apply filter_app|]. split; [apply filter_app|].
  split; intros p; apply filter_In.
Qed.

(** X10. The current hour of a combined series is the current hour of the
    first series when it has one, and that of the second series
    otherwise. *)
Theorem current_hour_of_combined_series :
  forall (clock : Z) (a b : PriceData),
    PriceData.current_hour clock (PriceData.__add__ a b)
    = match PriceData.current_hour clock a with
      | Ok hour => Ok hour
      | Raise _ => PriceData.current_hour clock b
      end.
Proof.
  intros clock a b. unfold PriceData.current_hour, PriceData.__add__.
  cbn [price_data]. rewrite filter_app.
  destruct (filter (Price.for_now clock) (price_data a)); reflexivity.
Qed.

Lemma day_start_of_day (clock : Z) :
  clock - clock mod Datetime.DAY = Datetime.DAY * (clock / Datetime.DAY).
Proof.
  pose proof (Z.div_mod clock Datetime.DAY) as H.
  unfold Datetime.DAY in *. lia.
Qed.

(** X11. Whether an entry is for today depends on the UTC day of the
    clock only: at two instants of the same UTC day the same entries of a
    series are for today. *)
Theorem for_today_same_day :
  forall (clock clock' : Z),
    clock / Datetime.DAY = clock' / Datetime.DAY ->
    (forall p, Price.for_today clock p = Price.for_today clock' p)
    /\ (forall pd, PriceData.today clock pd = PriceData.today clock' pd).
Proof.
  intros clock clock' Hday.
  assert (H : forall p, Price.for_today clock p = Price.for_today clock' p).
  { intros p.
    unfold Price.for_today, Datetime.geb, Datetime.leb,
      Datetime.replace_midnight, Datetime.add_days, Datetime.now_utc.
    cbn [instant utcoffset].
    rewrite !Z.add_0_r, !day_start_of_day, Hday. reflexivity. }
  split; [exact H|].
  intros pd. unfold PriceData.today. apply filter_ext. exact H.
Qed.

Lemma for_today_same_day_witness :
  Examples.day0 / Datetime.DAY = Examples.clock0 / Datetime.DAY
  /\ PriceData.today Examples.day0 Examples.two_hours
     = PriceData.today Examples.clock0 Examples.two_hours.
Proof.
  assert (Hday : Examples.day0 / Datetime.DAY
                 = Examples.clock0 / Datetime.DAY) by reflexivity.
  split; [exact Hday|].
  exact (proj2 (for_today_same_day Examples.day0 Examples.clock0 Hday)
           Examples.two_hours).
Defined.

(** X12. The entries that [today_min] and [today_max] return are entries
    for today, and, when no total of the day is NaN, the total of the
    first is not above the total of the second. *)
Theorem today_min_not_above_max :
  forall (round : float -> Z -> float) (clock : Z) (pd : PriceData)
         (lo hi : Price),
    PriceData.today_min round clock pd = Ok lo ->
    PriceData.today_max round clock pd = Ok hi ->
    In lo (PriceData.today clock pd)
    /\ In hi (PriceData.today clock pd)
    /\ (Forall (fun h => PrimFloat.is_nan (Price.total round h) = false)
          (PriceData.today clock pd) ->
        (Price.total round lo <=? Price.total round hi)%float = true).
Proof.
  intros round clock pd lo hi Hlo Hhi.
  unfold PriceData.today_min, PriceData.today_max in *.
  pose proof (min_first_min (Price.total round) (PriceData.today clock pd))
    as Hmin.
  pose proof (max_first_max (Price.total round) (PriceData.today clock pd))
    as Hmax.
  destruct (PriceData.today clock pd) as [|x rest] eqn:E;
    [discriminate|].
  destruct Hmin as (lo' & Hlo' & Hfirst).
  destruct Hmax as (hi' & Hhi' & (pre & post & Heq & _)).
  rewrite Hlo in Hlo'. injection Hlo' as <-.
  rewrite Hhi in Hhi'. injection Hhi' as <-.
  assert (Hin_hi : In hi (x :: rest))
    by (rewrite Heq; apply in_or_app; right; left; reflexivity).
  assert (Hin_lo : In lo (x :: rest)).
  { destruct Hfirst as (pre' & post' & Heq' & _).
    rewrite Heq'. apply in_or_app. right. left. reflexivity. }
  split; [exact Hin_lo|]. split; [exact Hin_hi|].
  intros Hnan.
  pose proof (first_min_le _ _ _ Hnan Hfirst) as Hle.
  rewrite Forall_forall in Hle. apply Hle. exact Hin_hi.
Qed.

Lemma today_min_not_above_max_witness :
  PriceData.today_min Reference.py_round Examples.clock0 Examples.with_ties
  = Ok (Examples.hourly 1 1)
  /\ PriceData.today_max Reference.py_round Examples.clock0
       Examples.with_ties
     = Ok (Examples.hourly 0 3)
  /\ In (Examples.hourly 1 1)
       (PriceData.today Examples.clock0 Examples.with_ties)
  /\ In (Examples.hourly 0 3)
       (PriceData.today Examples.clock0 Examples.with_ties)
  /\ (Price.total Reference.py_round (Examples.hourly 1 1)
      <=? Price.total Reference.py_round (Examples.hourly 0 3))%float
     = true.
Proof.
  assert (Hnan : Forall
                   (fun h =>
                      PrimFloat.is_nan (Price.total Reference.py_round h)
                      = false)
                   (PriceData.today Examples.clock0 Examples.with_ties)).
  { vm_compute. repeat constructor. }
  split; [reflexivity|]. split; [reflexivity|].
  destruct (today_min_not_above_max Reference.py_round
              Examples.clock0 Examples.with_ties
              (Examples.hourly 1 1) (Examples.hourly 0 3)
              eq_refl eq_refl)
    as (Hlo & Hhi & Hle).
  split; [exact Hlo|]. split; [exact Hhi|]. exact (Hle Hnan).
Defined.

(** A NaN total of the day: the two entries are still entries of the
    day. *)
Example today_min_max_with_nan :
  PriceData.today_min Reference.py_round Examples.clock0
    (mk_PriceData [Examples.hourly 0 PrimFloat.nan; Examples.hourly 1 1])
  = Ok (Examples.hourly 0 PrimFloat.nan)
  /\ PriceData.today_max Reference.py_round Examples.clock0
       (mk_PriceData [Examples.hourly 0 PrimFloat.nan; Examples.hourly 1 1])
     = Ok (Examples.hourly 0 PrimFloat.nan).
Proof. vm_compute. split; reflexivity. Qed.

(** ** The response handling of [_query] *)

Lemma raise_if_not_authorised_raises (items : list json) :
  forall e,
    FrankEnergie.raise_if_not_authorised items = Raise e ->
    (e = AuthException []
     /\ exists item,
          In item items
          /\ Json.subscript item "message"
             = Ok (JStr "user-error:auth-not-authorised"))
    \/ (exists item, In item items /\ Json.subscript item "message" = Raise e).
Proof.
  induction items as [|x rest IH]; intros e; cbn; [discriminate|].
  destruct (Json.subscript x "message") as [m|e'] eqn:E; cbn.
  - destruct (Json.eq_str m "user-error:auth-not-authorised") eqn:Em.
    + intros H. injection H as <-. left. split; [reflexivity|].
      exists x. split; [left; reflexivity|].
      destruct m; try discriminate. cbn in Em.
      apply String.eqb_eq in Em. subst. exact E.
    + intros H. destruct (IH e H) as [(-> & item & Hin & Hm)|(item & Hin & Hm)].
      * left. split; [reflexivity|]. exists item. split; [right|]; assumption.
      * right. exists item. split; [right|]; assumption.
  - intros H. injection H as <-. right. exists x.
    split; [left; reflexivity|exact E].
Qed.

(** X13. The response handling of [_query] never changes a response: it
    returns the response it was given, or raises. It raises
    [AuthException] only when an entry of the error list has the
    not-authorised message, and it never raises [RequestException]: the
    other errors of a response are left to the mapping of the
    operation. *)
Theorem query_returns_response_or_not_authorised :
  forall (response : json),
    (forall r, FrankEnergie._query response = Ok r -> r = response)
    /\ (forall args,
           FrankEnergie._query response = Raise (AuthException args) ->
           args = []
           /\ exists errors items item,
                Json.get response "errors" = Ok errors
                /\ Json.iter errors = Ok items
                /\ In item items
                /\ Json.subscript item "message"
                   = Ok (JStr "user-error:auth-not-authorised"))
    /\ (forall args,
           FrankEnergie._query response <> Raise (RequestException args)).
Proof.
  intros response. unfold FrankEnergie._query.
  destruct (Json.get response "errors") as [errors|e0] eqn:Eerrors;
    cbn [bind].
  2:{ assert (He0 : e0 = AttributeError).
      { destruct response; cbn in Eerrors;
          try (injection Eerrors as <-; reflexivity).
        destruct (Json.lookup "errors" members); discriminate. }
      subst e0. split; [discriminate|]. split; intros args H; discriminate. }
  destruct (Json.truthy errors).
  2:{ split; [intros r H; injection H as <-; reflexivity|].
      split; intros args H; discriminate. }
  destruct (Json.iter errors) as [items|e1] eqn:Eiter; cbn [bind].
  2:{ assert (He1 : e1 = TypeError)
        by (destruct errors; cbn in Eiter; congruence).
      subst e1. split; [discriminate|]. split; intros args H; discriminate. }
  destruct (FrankEnergie.raise_if_not_authorised items) as [[]|e2] eqn:Eloop;
    cbn [bind].
  - split; [intros r H; injection H as <-; reflexivity|].
    split; intros args H; discriminate.
  - split; [discriminate|].
    destruct (raise_if_not_authorised_raises items e2 Eloop)
      as [(-> & item & Hin & Hm)|(item & Hin & Hm)].
    + split.
      * intros args H. injection H as <-. split; [reflexivity|].
        exists errors, items, item. auto.
      * intros args H. discriminate.
    + assert (He2 : e2 = TypeError \/ e2 = KeyError "message").
      { destruct item; cbn in Hm; try (injection Hm as <-; auto).
        destruct (Json.lookup "message" members); [discriminate|].
        injection Hm as <-. auto. }
      split; intros args H; destruct He2 as [-> | ->]; discriminate.
Qed.

(** An error list the handling lets through, and one it does not. *)
Example query_lets_other_errors_through :
  FrankEnergie._query Responses.no_prices = Ok Responses.no_prices
  /\ FrankEnergie._query
       (JObj [("errors",
               JList [JObj [("message",
                             JStr "No marketprices found for segment A")];
                      JObj [("message",
                             JStr "user-error:auth-not-authorised")]])])
     = Raise (AuthException []).
Proof. split; reflexivity. Qed.

(** ** The methods that talk to the backend *)

(** The calls a user makes on a client. *)
Inductive call (date : Type) : Type :=
| call_login (username password : string)
| call_renew_token
| call_month_summary
| call_invoices
| call_user
| call_prices (start_date : date) (end_date : option date)
| call_close.
Arguments call_login {date}.
Arguments call_renew_token {date}.
Arguments call_month_summary {date}.
Arguments call_invoices {date}.
Arguments call_user {date}.
Arguments call_prices {date}.
Arguments call_close {date}.

Section ApiProperties.

Variable ClientSession : Type.
Variable new_session : ClientSession.
Variable post : ClientSession -> list request -> request -> reply.
Variable country_value : FrankCountry -> string.
Variable str : json -> string.
Variable User_siteReference : User -> result (option string).
Variable date : Type.
Variable date_str : date -> string.
Variable parse : json -> result datetime.

Local Abbreviation state := (Api.state ClientSession).
Local Abbreviation M := (Api.M ClientSession).
Local Abbreviation _query :=
  (Api._query ClientSession new_session post country_value str).
Local Abbreviation user :=
  (Api.user ClientSession new_session post country_value str).
Local Abbreviation _load_site_reference :=
  (Api._load_site_reference ClientSession new_session post country_value
     str User_siteReference).
Local Abbreviation login :=
  (Api.login ClientSession new_session post country_value str
     User_siteReference).
Local Abbreviation renew_token :=
  (Api.renew_token ClientSession new_session post country_value str
     User_siteReference).
Local Abbreviation month_summary :=
  (Api.month_summary ClientSession new_session post country_value str
     User_siteReference).
Local Abbreviation invoices :=
  (Api.invoices ClientSession new_session post country_value str
     User_siteReference parse).
Local Abbreviation prices :=
  (Api.prices ClientSession new_session post country_value str date
     date_str parse).
Local Abbreviation close := (Api.close ClientSession).

(** The state after a call, whatever it returned or raised. *)
Definition after (c : call date) (st : state) : state :=
  match c with
  | call_login username password => snd (login username password st)
  | call_renew_token => snd (renew_token st)
  | call_month_summary => snd (month_summary st)
  | call_invoices => snd (invoices st)
  | call_user => snd (user st)
  | call_prices start_date end_date => snd (prices start_date end_date st)
  | call_close => snd (close st)
  end.

(** The state after a sequence of calls. *)
Definition after_all (calls : list (call date)) (st : state) : state :=
  fold_left (fun st c => after c st) calls st.

Lemma bindM_Ok {A B : Type} (m : M A) (k : A -> M B) st a st' :
  m st = (Ok a, st') -> Api.bindM ClientSession m k st = k a st'.
Proof. intros H. unfold Api.bindM. rewrite H. reflexivity. Qed.

Lemma bindM_Raise {A B : Type} (m : M A) (k : A -> M B) st e st' :
  m st = (Raise e, st') -> Api.bindM ClientSession m k st = (Raise e, st').
Proof. intros H. unfold Api.bindM. rewrite H. reflexivity. Qed.

Lemma require_auth_None (st : state) :
  _auth (Api.self st) = None ->
  Api.require_auth ClientSession st = (Raise AuthRequiredException, st).
Proof.
  intros H. unfold Api.require_auth, Api.bindM, Api.get_self.
  rewrite H. reflexivity.
Qed.

Lemma require_auth_Some (st : state) (auth : Authentication) :
  _auth (Api.self st) = Some auth ->
  Api.require_auth ClientSession st = (Ok auth, st).
Proof.
  intros H. unfold Api.require_auth, Api.bindM, Api.get_self.
  rewrite H. reflexivity.
Qed.

(** X14. On a client without tokens the calls that need them ([user],
    [renew_token], [month_summary], [invoices]) raise
    [AuthRequiredException] at once: nothing is sent, no session is
    opened and the client is left as it was. *)
Theorem calls_without_tokens_raise_AuthRequiredException :
  forall st : state,
    _auth (Api.self st) = None ->
    user st = (Raise AuthRequiredException, st)
    /\ renew_token st = (Raise AuthRequiredException, st)
    /\ month_summary st = (Raise AuthRequiredException, st)
    /\ invoices st = (Raise AuthRequiredException, st).
Proof.
  intros st Hauth.
  repeat split; apply bindM_Raise; apply require_auth_None; exact Hauth.
Qed.

(** *** What a call keeps *)

Section Preserves.

(** A relation between the state before and the state after, which every
    step may be composed of. *)
Variable R : state -> state -> Prop.
Hypothesis R_refl : forall st, R st st.
Hypothesis R_trans : forall st st' st'', R st st' -> R st' st'' -> R st st''.

Definition preserves {A : Type} (m : M A) : Prop :=
  forall st r st', m st = (r, st') -> R st st'.

Lemma preserves_ret {A : Type} (a : A) : preserves (Api.ret ClientSession a).
Proof. intros st r st' H. injection H as _ <-. apply R_refl. Qed.

Lemma preserves_raise {A : Type} (e : exn) :
  preserves (@Api.raise ClientSession A e).
Proof. intros st r st' H. injection H as _ <-. apply R_refl. Qed.

Lemma preserves_lift {A : Type} (x : result A) :
  preserves (Api.lift ClientSession x).
Proof. intros st r st' H. injection H as _ <-. apply R_refl. Qed.

Lemma preserves_get_self : preserves (Api.get_self ClientSession).
Proof. intros st r st' H. injection H as _ <-. apply R_refl. Qed.

Lemma preserves_bindM {A B : Type} (m : M A) (k : A -> M B) :
  preserves m -> (forall a, preserves (k a)) ->
  preserves (Api.bindM ClientSession m k).
Proof.
  intros Hm Hk st r st' H. unfold Api.bindM in H.
  destruct (m st) as [[a|e] st1] eqn:E.
  - apply R_trans with st1; [eapply Hm; exact E|eapply Hk; exact H].
  - injection H as _ <-. eapply Hm. exact E.
Qed.

Lemma preserves_require_auth : preserves (Api.require_auth ClientSession).
Proof.
  apply preserves_bindM; [apply preserves_get_self|].
  intros c. destruct (_auth c); [apply preserves_ret|apply preserves_raise].
Qed.

End Preserves.

(** A request of the client: it goes to the data URL and carries the
    country of the client. *)
Definition addressed (country : option FrankCountry) (req : request) : Prop :=
  url req = Api.DATA_URL
  /\ exists c,
       country = Some c /\ In ("X-Country", country_value c) (headers req).

(** What every call but [close] keeps: the country, the sessions closed,
    and the session, but for the one it opens when it has none; what it
    sends is addressed. *)
Definition frame (st st' : state) : Prop :=
  _country (Api.self st') = _country (Api.self st)
  /\ Api.closed st' = Api.closed st
  /\ match _session (Api.self st) with
     | Some s =>
         _session (Api.self st') = Some s
         /\ _close_session (Api.self st') = _close_session (Api.self st)
     | None =>
         (_session (Api.self st') = None
          /\ _close_session (Api.self st') = _close_session (Api.self st))
         \/ (_session (Api.self st') = Some new_session
             /\ _close_session (Api.self st') = true)
     end
  /\ exists new,
       Api.sent st' = new ++ Api.sent st
       /\ Forall (addressed (_country (Api.self st))) new.

Lemma frame_refl st : frame st st.
Proof.
  split; [reflexivity|]. split; [reflexivity|]. split.
  - destruct (_session (Api.self st)); auto.
  - exists []. split; [reflexivity|constructor].
Qed.

Lemma frame_trans st st' st'' : frame st st' -> frame st' st'' -> frame st st''.
Proof.
  intros (Hc & Hcl & Hs & new & Hsent & Hnew)
         (Hc' & Hcl' & Hs' & new' & Hsent' & Hnew').
  split; [congruence|]. split; [congruence|]. split.
  - destruct (_session (Api.self st)) as [s|].
    + destruct Hs as [Hs Hf]. rewrite Hs in Hs'.
      destruct Hs' as [Hs' Hf']. split; congruence.
    + destruct Hs as [[Hs Hf]|[Hs Hf]]; rewrite Hs in Hs'.
      * destruct Hs' as [[Hs' Hf']|[Hs' Hf']]; [left|right];
          split; congruence.
      * destruct Hs' as [Hs' Hf']. right. split; congruence.
  - exists (new' ++ new). split.
    + rewrite Hsent', Hsent. apply app_assoc.
    + apply Forall_app. split; [|exact Hnew].
      rewrite <- Hc. exact Hnew'.
Qed.

(** The tokens are kept. *)
Definition same_auth (st st' : state) : Prop :=
  _auth (Api.self st') = _auth (Api.self st).

Lemma same_auth_refl st : same_auth st st.
Proof. reflexivity. Qed.

Lemma same_auth_trans st st' st'' :
  same_auth st st' -> same_auth st' st'' -> same_auth st st''.
Proof. unfold same_auth. congruence. Qed.

(** The headers of a request of a client with the tokens [auth] and the
    country code [v]. *)
Definition request_headers (auth : option Authentication) (v : string)
  : list (string * string) :=
  match auth with
  | Some a =>
      [("Authorization", ("Bearer " ++ str (authToken a))%string);
       ("X-Country", v)]
  | None => [("X-Country", v)]
  end.

Lemma query_cases (query : json) (st : state) :
  let c := Api.self st in
  let session :=
    match _session c with
    | Some s => s
    | None => new_session
    end in
  let c' :=
    match _session c with
    | Some _ => c
    | None =>
        mk_FrankEnergie (_country c) true (_auth c) (Some new_session)
          (_siteReference c)
    end in
  match _country c with
  | None =>
      _query query st
      = (Raise AttributeError, Api.mk_state c' (Api.sent st) (Api.closed st))
  | Some country =>
      let req :=
        mk_request Api.DATA_URL query
          (request_headers (_auth c) (country_value country)) in
      _query query st
      = (match post session (Api.sent st) req with
         | Reply response => FrankEnergie._query response
         | Failed => Raise ValueError
         | Crashed e => Raise e
         end,
         Api.mk_state c' (req :: Api.sent st) (Api.closed st))
  end.
Proof.
  destruct st as [c sent closed]. cbn [Api.self Api.sent Api.closed].
  unfold Api._query. cbn [Api.self Api.sent Api.closed].
  destruct c as [country close_session auth session site].
  cbn [_session _country _auth _siteReference _close_session].
  unfold Api._country_value, request_headers.
  destruct country as [country|], session as [s|], auth as [a|];
    cbn [_session _country _auth _siteReference _close_session bind];
    try reflexivity;
    match goal with
    | |- context [post ?s ?l ?r] => destruct (post s l r); reflexivity
    end.
Qed.

Lemma query_frame (query : json) : preserves frame (_query query).
Proof.
  intros st r st' H. pose proof (query_cases query st) as Hq.
  cbv zeta in Hq. unfold frame.
  destruct (_country (Api.self st)) as [country|] eqn:Ecountry;
    rewrite Hq in H; injection H as _ <-;
    cbn [Api.self Api.sent Api.closed].
  - split; [destruct (_session (Api.self st)); cbn; congruence|].
    split; [reflexivity|]. split.
    + destruct (_session (Api.self st)) eqn:Es; cbn;
        [split; [exact Es|reflexivity]|right; split; reflexivity].
    + eexists [_]. split; [reflexivity|].
      constructor; [|constructor]. split; [reflexivity|].
      exists country. split; [reflexivity|]. cbn [headers].
      unfold request_headers.
      destruct (_auth (Api.self st)); [right; left|left]; reflexivity.
  - split; [destruct (_session (Api.self st)); cbn; congruence|].
    split; [reflexivity|]. split.
    + destruct (_session (Api.self st)) eqn:Es; cbn;
        [split; [exact Es|reflexivity]|right; split; reflexivity].
    + exists []. split; [reflexivity|constructor].
Qed.

Lemma query_same_auth (query : json) : preserves same_auth (_query query).
Proof.
  intros st r st' H. pose proof (query_cases query st) as Hq.
  cbv zeta in Hq. unfold same_auth.
  destruct (_country (Api.self st)) as [country|];
    rewrite Hq in H; injection H as _ <-; cbn [Api.self];
    destruct (_session (Api.self st)); reflexivity.
Qed.

Lemma set_auth_frame (auth : Authentication) :
  preserves frame (Api.set_auth ClientSession auth).
Proof.
  intros st r st' H. cbv in H. injection H as _ <-.
  unfold frame. cbn. split; [reflexivity|]. split; [reflexivity|]. split.
  - destruct st as [[? ? ? [s|] ?] ? ?]; cbn; auto.
  - exists []. split; [reflexivity|constructor].
Qed.

Lemma set_siteReference_frame (ref : option string) :
  preserves frame (Api.set_siteReference ClientSession ref).
Proof.
  intros st r st' H. cbv in H. injection H as _ <-.
  unfold frame. cbn. split; [reflexivity|]. split; [reflexivity|]. split.
  - destruct st as [[? ? ? [s|] ?] ? ?]; cbn; auto.
  - exists []. split; [reflexivity|constructor].
Qed.

Lemma set_siteReference_same_auth (ref : option string) :
  preserves same_auth (Api.set_siteReference ClientSession ref).
Proof. intros st r st' H. cbv in H. injection H as _ <-. reflexivity. Qed.

(** One step of the proof that a method keeps [frame], resp.
    [same_auth]. *)
Ltac keeps_frame :=
  first
    [ apply (preserves_require_auth frame frame_refl frame_trans)
    | apply query_frame
    | apply set_auth_frame
    | apply set_siteReference_frame
    | apply (preserves_ret frame frame_refl)
    | apply (preserves_raise frame frame_refl)
    | apply (preserves_lift frame frame_refl)
    | apply (preserves_get_self frame frame_refl)
    | apply (preserves_bindM frame frame_trans); [|intros ?] ].

Ltac keeps_auth :=
  first
    [ apply (preserves_require_auth same_auth same_auth_refl
               same_auth_trans)
    | apply query_same_auth
    | apply set_siteReference_same_auth
    | apply (preserves_ret same_auth same_auth_refl)
    | apply (preserves_raise same_auth same_auth_refl)
    | apply (preserves_lift same_auth same_auth_refl)
    | apply (preserves_get_self same_auth same_auth_refl)
    | apply (preserves_bindM same_auth same_auth_trans); [|intros ?] ].

Lemma user_frame : preserves frame user.
Proof. unfold Api.user. cbv zeta. repeat keeps_frame. Qed.

Lemma user_same_auth : preserves same_auth user.
Proof. unfold Api.user. cbv zeta. repeat keeps_auth. Qed.

Lemma load_site_reference_frame : preserves frame _load_site_reference.
Proof.
  unfold Api._load_site_reference. keeps_frame; [keeps_frame|].
  keeps_frame; [keeps_frame|].
  destruct (_country a0) as [[]|], (_siteReference a0);
    repeat first [apply user_frame|keeps_frame].
Qed.

Lemma load_site_reference_same_auth :
  preserves same_auth _load_site_reference.
Proof.
  unfold Api._load_site_reference. keeps_auth; [keeps_auth|].
  keeps_auth; [keeps_auth|].
  destruct (_country a0) as [[]|], (_siteReference a0);
    repeat first [apply user_same_auth|keeps_auth].
Qed.

Lemma login_frame username password :
  preserves frame (login username password).
Proof.
  unfold Api.login. cbv zeta.
  repeat first [apply load_site_reference_frame|keeps_frame].
Qed.

Lemma renew_token_frame : preserves frame renew_token.
Proof.
  unfold Api.renew_token. cbv zeta.
  repeat first [apply load_site_reference_frame|keeps_frame].
Qed.

Lemma month_summary_frame : preserves frame month_summary.
Proof.
  unfold Api.month_summary. cbv zeta.
  repeat first [apply load_site_reference_frame|keeps_frame].
Qed.

Lemma invoices_frame : preserves frame invoices.
Proof.
  unfold Api.invoices. cbv zeta.
  repeat first [apply load_site_reference_frame|keeps_frame].
Qed.

Lemma prices_frame start_date end_date :
  preserves frame (prices start_date end_date).
Proof. unfold Api.prices. cbv zeta. repeat keeps_frame. Qed.

(** *** Login and renewal *)

(** What [login] and [renew_token] do with the response. *)
Definition store_tokens (response : json) : M (option Authentication) :=
  Api.bindM ClientSession
    (Api.lift ClientSession (Authentication.from_dict response))
    (fun auth =>
       Api.bindM ClientSession (Api.set_auth ClientSession auth)
         (fun _ =>
            Api.bindM ClientSession _load_site_reference
              (fun _ =>
                 Api.bindM ClientSession (Api.get_self ClientSession)
                   (fun c => Api.ret ClientSession (_auth c))))).

Lemma set_auth_sets (auth : Authentication) (st : state) :
  exists st',
    Api.set_auth ClientSession auth st = (Ok tt, st')
    /\ _auth (Api.self st') = Some auth
    /\ _country (Api.self st') = _country (Api.self st).
Proof. eexists. split; [reflexivity|]. split; reflexivity. Qed.

Lemma load_site_reference_returns (st : state) (auth : Authentication) :
  _auth (Api.self st) = Some auth ->
  _country (Api.self st) <> Some Belgium ->
  _load_site_reference st = (Ok tt, st).
Proof.
  intros Hauth Hcountry. unfold Api._load_site_reference.
  rewrite (bindM_Ok _ _ _ _ _ (require_auth_Some st auth Hauth)).
  unfold Api.bindM, Api.get_self. cbv beta iota.
  destruct (_country (Api.self st)) as [[]|]; try reflexivity.
  congruence.
Qed.

Lemma store_tokens_Ok response st a st' :
  store_tokens response st = (Ok a, st') ->
  exists auth,
    Authentication.from_dict response = Ok auth
    /\ a = Some auth
    /\ _auth (Api.self st') = Some auth.
Proof.
  unfold store_tokens, Api.lift. unfold Api.bindM at 1.
  destruct (Authentication.from_dict response) as [auth|e]; [|discriminate].
  destruct (set_auth_sets auth st) as (st1 & Hset & Hauth & _).
  rewrite (bindM_Ok _ _ _ _ _ Hset).
  unfold Api.bindM at 1.
  destruct (_load_site_reference st1) as [[[]|e] st2] eqn:Eload;
    [|discriminate].
  apply load_site_reference_same_auth in Eload. unfold same_auth in Eload.
  unfold Api.bindM, Api.get_self, Api.ret. intros H. injection H as <- <-.
  exists auth. rewrite Eload. auto.
Qed.

Lemma store_tokens_Raise response st e st' :
  store_tokens response st = (Raise e, st') ->
  _country (Api.self st) <> Some Belgium ->
  st' = st.
Proof.
  unfold store_tokens, Api.lift. unfold Api.bindM at 1.
  destruct (Authentication.from_dict response) as [auth|e0].
  - destruct (set_auth_sets auth st) as (st1 & Hset & Hauth & Hcountry).
    rewrite (bindM_Ok _ _ _ _ _ Hset). intros H Hnot.
    rewrite <- Hcountry in Hnot.
    rewrite (bindM_Ok _ _ _ _ _
               (load_site_reference_returns st1 auth Hauth Hnot)) in H.
    discriminate.
  - intros H _. injection H as _ <-. reflexivity.
Qed.

(** [authenticates m st]: when the method [m] returns from the state
    [st], it returns the tokens it has stored in the client, which is
    authenticated from then on; when it raises on a client whose country
    is not Belgium, the client holds the tokens it held before. *)
Definition authenticates (m : M (option Authentication)) (st : state)
  : Prop :=
  (forall a st',
      m st = (Ok a, st') ->
      exists auth,
        a = Some auth
        /\ _auth (Api.self st') = Some auth
        /\ FrankEnergie.is_authenticated (Api.self st') = true)
  /\ (forall e st',
         m st = (Raise e, st') ->
         _country (Api.self st) <> Some Belgium ->
         _auth (Api.self st') = _auth (Api.self st)).

Lemma query_then_store_authenticates (query : json) (st : state) :
  authenticates (Api.bindM ClientSession (_query query) store_tokens) st.
Proof.
  split.
  - intros a st' H. unfold Api.bindM in H.
    destruct (_query query st) as [[response|e] st1]; [|discriminate].
    destruct (store_tokens_Ok _ _ _ _ H) as (auth & _ & -> & Hauth).
    exists auth. split; [reflexivity|]. split; [exact Hauth|].
    unfold FrankEnergie.is_authenticated. rewrite Hauth. reflexivity.
  - intros e st' H Hnot. unfold Api.bindM in H.
    destruct (_query query st) as [[response|e1] st1] eqn:Equery.
    + pose proof (query_frame _ _ _ _ Equery) as (Hcountry & _).
      rewrite <- Hcountry in Hnot.
      rewrite (store_tokens_Raise _ _ _ _ H Hnot).
      exact (query_same_auth _ _ _ _ Equery).
    + injection H as _ <-. exact (query_same_auth _ _ _ _ Equery).
Qed.

(** X15. A [login] or a [renew_token] that returns has stored the tokens
    it returns in the client, which is authenticated from then on. One
    that raises on a client whose country is not Belgium leaves the
    tokens of the client as they were: a failed login or renewal does not
    log the client out. *)
Theorem login_and_renewal_store_tokens :
  forall (username password : string) (st : state),
    authenticates (login username password) st
    /\ authenticates renew_token st.
Proof.
  intros username password st. split.
  - apply query_then_store_authenticates.
  - destruct (_auth (Api.self st)) as [old|] eqn:Eold.
    + pose proof (require_auth_Some st old Eold) as Hreq.
      unfold authenticates, Api.renew_token.
      rewrite (bindM_Ok _ _ _ _ _ Hreq).
      apply query_then_store_authenticates.
    + pose proof (require_auth_None st Eold) as Hreq.
      unfold authenticates, Api.renew_token.
      rewrite (bindM_Raise _ _ _ _ _ Hreq).
      split; [discriminate|].
      intros e st' H _. injection H as _ <-. reflexivity.
Qed.

(** *** Sessions and requests *)

Lemma after_frame (c : call date) (st : state) :
  c <> call_close -> frame st (after c st).
Proof.
  intros Hc. unfold after.
  destruct c as [username password| | | | |start_date end_date|];
    try congruence.
  - destruct (login username password st) eqn:E.
    exact (login_frame _ _ _ _ _ E).
  - destruct (renew_token st) eqn:E. exact (renew_token_frame _ _ _ E).
  - destruct (month_summary st) eqn:E.
    exact (month_summary_frame _ _ _ E).
  - destruct (invoices st) eqn:E. exact (invoices_frame _ _ _ E).
  - destruct (user st) eqn:E. exact (user_frame _ _ _ E).
  - destruct (prices start_date end_date st) eqn:E.
    exact (prices_frame _ _ _ _ _ E).
Qed.

Lemma call_close_dec (c : call date) : c = call_close \/ c <> call_close.
Proof. destruct c; first [left; reflexivity|right; discriminate]. Qed.

(** X16. A client never closes a session it was given: whatever is called
    on a client constructed with a session, it keeps that session and
    closes none. A client constructed without a session closes no session
    but the one it has opened itself. *)
Theorem client_closes_its_own_session_only :
  forall (calls : list (call date)) (auth_token refresh_token : option string)
         (country : option FrankCountry),
    (forall session,
        let st :=
          after_all calls
            (Api.mk_state
               (FrankEnergie.__init__ (Some session) auth_token
                  refresh_token country) [] []) in
        _session (Api.self st) = Some session /\ Api.closed st = [])
    /\ (let st :=
          after_all calls
            (Api.mk_state
               (FrankEnergie.__init__ None auth_token refresh_token country)
               [] []) in
        Forall (fun session => session = new_session) (Api.closed st)).
Proof.
  intros calls auth_token refresh_token country. split.
  - intros session.
    set (given st :=
           _session (Api.self st) = Some session
           /\ _close_session (Api.self st) = false
           /\ Api.closed st = []).
    assert (Hstep : forall c st, given st -> given (after c st)).
    { intros c st (Hs & Hf & Hc).
      destruct (call_close_dec c) as [->|Hnot].
      - unfold after, Api.close. rewrite Hs, Hf. cbn. repeat split; auto.
      - destruct (after_frame c st Hnot) as (_ & Hclosed & Hsession & _).
        rewrite Hs in Hsession. destruct Hsession as [Hs' Hf'].
        repeat split; congruence. }
    assert (Hall : forall st, given st -> given (after_all calls st)).
    { unfold after_all. induction calls as [|c rest IH]; intros st Hst;
        cbn; [exact Hst|]. apply IH. apply Hstep. exact Hst. }
    cbv zeta.
    destruct (Hall (Api.mk_state
                      (FrankEnergie.__init__ (Some session) auth_token
                         refresh_token country) [] []))
      as (Hs & _ & Hc); [repeat split; reflexivity|]. auto.
  - set (own st :=
           (_session (Api.self st) = None
            \/ _session (Api.self st) = Some new_session)
           /\ Forall (fun session => session = new_session) (Api.closed st)).
    assert (Hstep : forall c st, own st -> own (after c st)).
    { intros c st (Hs & Hc).
      destruct (call_close_dec c) as [->|Hnot].
      - unfold after, Api.close.
        destruct Hs as [Hs|Hs]; rewrite Hs; cbn.
        + split; [left; exact Hs|exact Hc].
        + destruct (_close_session (Api.self st)); cbn;
            (split; [right; exact Hs|]); [constructor; auto|exact Hc].
      - destruct (after_frame c st Hnot) as (_ & Hclosed & Hsession & _).
        split; [|rewrite Hclosed; exact Hc].
        destruct Hs as [Hs|Hs]; rewrite Hs in Hsession.
        + destruct Hsession as [[Hs' _]|[Hs' _]]; auto.
        + destruct Hsession as [Hs' _]. auto. }
    assert (Hall : forall st, own st -> own (after_all calls st)).
    { unfold after_all. induction calls as [|c rest IH]; intros st Hst;
        cbn; [exact Hst|]. apply IH. apply Hstep. exact Hst. }
    cbv zeta.
    destruct (Hall (Api.mk_state
                      (FrankEnergie.__init__ None auth_token refresh_token
                         country) [] []))
      as (_ & Hc); [split; [left; reflexivity|constructor]|]. exact Hc.
Qed.

(** X17. Every request of a client goes to the data URL of the backend
    and carries the country of the client in its "X-Country" header; no
    call changes the country, and a client without a country sends
    nothing. *)
Theorem requests_are_addressed :
  forall (calls : list (call date)) (st : state),
    _country (Api.self (after_all calls st)) = _country (Api.self st)
    /\ (exists new,
           Api.sent (after_all calls st) = new ++ Api.sent st
           /\ Forall (addressed (_country (Api.self st))) new)
    /\ (_country (Api.self st) = None ->
        Api.sent (after_all calls st) = Api.sent st).
Proof.
  intros calls st.
  assert (H : _country (Api.self (after_all calls st))
              = _country (Api.self st)
              /\ exists new,
                   Api.sent (after_all calls st) = new ++ Api.sent st
                   /\ Forall (addressed (_country (Api.self st))) new).
  { unfold after_all. revert st.
    induction calls as [|c rest IH]; intros st; cbn.
    - split; [reflexivity|]. exists []. split; [reflexivity|constructor].
    - destruct (IH (after c st)) as (Hcountry & new & Hsent & Hnew).
      assert (Hc : _country (Api.self (after c st)) = _country (Api.self st)
                   /\ exists new',
                        Api.sent (after c st) = new' ++ Api.sent st
                        /\ Forall (addressed (_country (Api.self st))) new').
      { destruct (call_close_dec c) as [->|Hnot].
        - unfold after, Api.close.
          destruct (_session (Api.self st));
            [destruct (_close_session (Api.self st))|]; cbn;
            (split; [reflexivity|]); exists [];
            (split; [reflexivity|constructor]).
        - destruct (after_frame c st Hnot) as (Hc & _ & _ & Hs).
          split; assumption. }
      destruct Hc as (Hcountry' & new' & Hsent' & Hnew').
      split; [congruence|]. exists (new ++ new'). split.
      + rewrite Hsent, Hsent'. apply app_assoc.
      + apply Forall_app. split; [|exact Hnew'].
        rewrite <- Hcountry'. exact Hnew. }
  destruct H as (Hcountry & new & Hsent & Hnew).
  split; [exact Hcountry|]. split; [exists new; auto|].
  intros Hnone. rewrite Hnone in Hnew.
  destruct new as [|req new']; [exact Hsent|].
  inversion Hnew as [|? ? (_ & c & Hc & _) _]. discriminate.
Qed.

(** The calls that store tokens. *)
Definition stores_tokens (c : call date) : bool :=
  match c with
  | call_login _ _ => true
  | call_renew_token => true
  | _ => false
  end.

Lemma month_summary_same_auth : preserves same_auth month_summary.
Proof.
  unfold Api.month_summary. cbv zeta.
  repeat first [apply load_site_reference_same_auth|keeps_auth].
Qed.

Lemma invoices_same_auth : preserves same_auth invoices.
Proof.
  unfold Api.invoices. cbv zeta.
  repeat first [apply load_site_reference_same_auth|keeps_auth].
Qed.

Lemma prices_same_auth start_date end_date :
  preserves same_auth (prices start_date end_date).
Proof. unfold Api.prices. cbv zeta. repeat keeps_auth. Qed.

(** X18. The tokens of a client change by [login] and [renew_token]
    only: after any sequence of other calls, whatever they return or
    raise, the client holds the tokens it held before, and is
    authenticated exactly if it was. *)
Theorem tokens_change_by_login_and_renewal_only :
  forall (calls : list (call date)) (st : state),
    Forall (fun c => stores_tokens c = false) calls ->
    _auth (Api.self (after_all calls st)) = _auth (Api.self st)
    /\ FrankEnergie.is_authenticated (Api.self (after_all calls st))
       = FrankEnergie.is_authenticated (Api.self st).
Proof.
  intros calls st Hcalls.
  assert (H : _auth (Api.self (after_all calls st)) = _auth (Api.self st)).
  { unfold after_all. revert st.
    induction Hcalls as [|c rest Hc _ IH]; intros st; cbn; [reflexivity|].
    rewrite IH. unfold after.
    destruct c as [username password| | | | |start_date end_date|];
      try discriminate.
    - destruct (month_summary st) eqn:E.
      exact (month_summary_same_auth _ _ _ E).
    - destruct (invoices st) eqn:E. exact (invoices_same_auth _ _ _ E).
    - destruct (user st) eqn:E. exact (user_same_auth _ _ _ E).
    - destruct (prices start_date end_date st) eqn:E.
      exact (prices_same_auth _ _ _ _ _ E).
    - unfold Api.close.
      destruct (_session (Api.self st));
        [destruct (_close_session (Api.self st))|]; reflexivity. }
  split; [exact H|]. unfold FrankEnergie.is_authenticated. rewrite H.
  reflexivity.
Qed.

End ApiProperties.

(** *** A backend, for evaluation *)

Module Backend.

(** Sessions are numbered; the client opens the session 1. *)
Definition new_session : nat := 1%nat.

Definition country_value (c : FrankCountry) : string :=
  match c with
  | Netherlands => "NL"
  | Belgium => "BE"
  end.

Definition operation (req : request) : json :=
  match Json.get (body req) "operationName" with
  | Ok v => v
  | Raise _ => JNull
  end.

(** A backend that knows one user and the gas prices of one hour. *)
Definition post (session : nat) (before : list request) (req : request)
  : reply :=
  if Json.eq_str (operation req) "Login" then
    Reply (JObj [("data",
                  JObj [("login",
                         JObj [("authToken", JStr "a1");
                               ("refreshToken", JStr "r1")])])])
  else if Json.eq_str (operation req) "Me" then
    Reply (JObj [("data",
                  JObj [("me", JObj [("connectionsStatus", JStr "READY")])])])
  else if Json.eq_str (operation req) "MarketPrices" then
    Reply Responses.gas_only
  else if Json.eq_str (operation req) "RenewToken" then
    Reply Responses.not_authorised
  else Failed.

Definition User_siteReference (me : User) : result (option string) :=
  Raise AttributeError.

(** [str] on a token that is a string or [None]; the model reads no
    other. *)
Definition str (token : json) : string :=
  match token with
  | JStr s => s
  | JNull => "None"
  | _ => ""
  end.

(** A client of the Netherlands without session or tokens, before any
    call. *)
Definition fresh : Api.state nat :=
  Api.mk_state (FrankEnergie.__init__ None None None (Some Netherlands))
    [] [].

Definition run (calls : list (call string)) (st : Api.state nat)
  : Api.state nat :=
  after_all nat new_session post country_value str User_siteReference
    string (fun d => d) Reference.iso_parse calls st.

End Backend.

Lemma calls_without_tokens_raise_AuthRequiredException_witness :
  _auth (Api.self Backend.fresh) = None
  /\ Api.user nat Backend.new_session Backend.post Backend.country_value
       Backend.str Backend.fresh
     = (Raise AuthRequiredException, Backend.fresh)
  /\ Api.renew_token nat Backend.new_session Backend.post
       Backend.country_value Backend.str Backend.User_siteReference
       Backend.fresh
     = (Raise AuthRequiredException, Backend.fresh)
  /\ Api.month_summary nat Backend.new_session Backend.post
       Backend.country_value Backend.str Backend.User_siteReference
       Backend.fresh
     = (Raise AuthRequiredException, Backend.fresh)
  /\ Api.invoices nat Backend.new_session Backend.post
       Backend.country_value Backend.str Backend.User_siteReference
       Reference.iso_parse Backend.fresh
     = (Raise AuthRequiredException, Backend.fresh).
Proof.
  split; [reflexivity|].
  exact (calls_without_tokens_raise_AuthRequiredException nat
           Backend.new_session Backend.post Backend.country_value
           Backend.str Backend.User_siteReference Reference.iso_parse
           Backend.fresh eq_refl).
Defined.

(** A login, the user and the prices, a renewal the backend refuses, and
    the close: the tokens of the login are kept through the refused
    renewal, the requests after the login carry them, and the session the
    client opened is closed. *)
Example a_session_of_calls :
  let st :=
    Backend.run
      [call_login "me@example.org" "secret"; call_user;
       call_prices "2023-01-01" (Some "2023-01-02");
       call_renew_token; call_close]
      Backend.fresh in
  _auth (Api.self st) = Some (mk_Authentication (JStr "a1") (JStr "r1"))
  /\ map headers (Api.sent st)
     = [[("Authorization", "Bearer a1"); ("X-Country", "NL")];
        [("Authorization", "Bearer a1"); ("X-Country", "NL")];
        [("Authorization", "Bearer a1"); ("X-Country", "NL")];
        [("X-Country", "NL")]]
  /\ map Backend.operation (Api.sent st)
     = [JStr "RenewToken"; JStr "MarketPrices"; JStr "Me"; JStr "Login"]
  /\ Api.closed st = [1%nat].
Proof. vm_compute. repeat split; reflexivity. Qed.

(** The prices need no tokens. *)
Example prices_without_tokens :
  fst (Api.prices nat Backend.new_session Backend.post
         Backend.country_value Backend.str string (fun d => d)
         Reference.iso_parse "2023-01-01" None Backend.fresh)
  = Ok (mk_MarketPrices (mk_PriceData [])
          (mk_PriceData [Examples.hourly 0 2])).
Proof. vm_compute. reflexivity. Qed.

Lemma tokens_change_by_login_and_renewal_only_witness :
  Forall (fun c => stores_tokens string c = false)
    [call_prices "2023-01-01" None; call_user; call_close]
  /\ _auth
       (Api.self
          (Backend.run
             [call_prices "2023-01-01" None; call_user; call_close]
             Backend.fresh))
     = _auth (Api.self Backend.fresh).
Proof.
  assert (Hcalls : Forall (fun c => stores_tokens string c = false)
                     [call_prices "2023-01-01" None; call_user; call_close])
    by (repeat constructor).
  split; [exact Hcalls|].
  exact (proj1 (tokens_change_by_login_and_renewal_only nat
                  Backend.new_session Backend.post Backend.country_value
                  Backend.str Backend.User_siteReference string
                  (fun d => d) Reference.iso_parse _ Backend.fresh Hcalls)).
Defined.

(** ** More on the price mapping *)

(** X19. When the error list of a price response is present and the
    message of its first entry is a string that does not start with "No
    marketprices found for segment", [MarketPrices.from_dict] raises
    [RequestException] with that message, whatever data the response
    carries. *)
Theorem from_dict_other_error_raises :
  forall (parse : json -> result datetime) (data e0 : json)
         (rest : list json) (message : string),
    Json.get data "errors" = Ok (JList (e0 :: rest)) ->
    Json.subscript e0 "message" = Ok (JStr message) ->
    String.prefix "No marketprices found for segment" message = false ->
    MarketPrices.from_dict parse data
    = Raise (RequestException [JStr message]).
Proof.
  intros parse data e0 rest message Herrors Hmessage Hprefix.
  unfold MarketPrices.from_dict. rewrite Herrors. cbn.
  rewrite Hmessage. cbn. rewrite Hprefix. reflexivity.
Qed.

(** A response with an error and with prices. *)
Definition internal_error : json :=
  JObj [("errors", JList [JObj [("message", JStr "Internal error")]]);
        ("data", JObj [("marketPricesGas", JList Responses.one_hour)])].

Lemma from_dict_other_error_raises_witness :
  Json.get internal_error "errors"
  = Ok (JList [JObj [("message", JStr "Internal error")]])
  /\ String.prefix "No marketprices found for segment" "Internal error"
     = false
  /\ MarketPrices.from_dict Reference.iso_parse internal_error
     = Raise (RequestException [JStr "Internal error"]).
Proof.
  split; [reflexivity|]. split; [reflexivity|].
  exact (from_dict_other_error_raises Reference.iso_parse internal_error
           (JObj [("message", JStr "Internal error")]) [] "Internal error"
           eq_refl eq_refl eq_refl).
Defined.

(** X20. A record whose four prices are numbers reads as a price entry
    exactly when it has a "from" and a "till" that parse; the entry then
    holds the two parsed dates and the four numbers. *)
Theorem price_of_record :
  forall (parse : json -> result datetime) (data : json)
         (mp mpt smp etp : float),
    Json.subscript data "marketPrice" = Ok (JNum mp) ->
    Json.subscript data "marketPriceTax" = Ok (JNum mpt) ->
    Json.subscript data "sourcingMarkupPrice" = Ok (JNum smp) ->
    Json.subscript data "energyTaxPrice" = Ok (JNum etp) ->
    forall p : Price,
      Price.__init__ parse data = Ok p
      <-> exists from till,
            Json.subscript data "from" = Ok from
            /\ parse from = Ok (date_from p)
            /\ Json.subscript data "till" = Ok till
            /\ parse till = Ok (date_till p)
            /\ market_price p = mp
            /\ market_price_tax p = mpt
            /\ sourcing_markup_price p = smp
            /\ energy_tax_price p = etp.
Proof.
  intros parse data mp mpt smp etp Hmp Hmpt Hsmp Hetp p.
  unfold Price.__init__, bind. rewrite Hmp, Hmpt, Hsmp, Hetp. cbn.
  split.
  - destruct (Json.subscript data "from") as [from|]; [|discriminate].
    destruct (parse from) as [df|] eqn:Efrom; [|discriminate].
    destruct (Json.subscript data "till") as [till|]; [|discriminate].
    destruct (parse till) as [dt|] eqn:Etill; [|discriminate].
    intros H. injection H as <-. cbn.
    exists from, till. repeat split; assumption || reflexivity.
  - intros (from & till & -> & -> & -> & -> & <- & <- & <- & <-).
    destruct p. reflexivity.
Qed.

Lemma price_of_record_witness :
  Json.subscript a_record "marketPrice" = Ok (JNum 0x1.999999999999ap-4)
  /\ Json.subscript a_record "marketPriceTax"
     = Ok (JNum 0x1.5810624dd2f1bp-6)
  /\ Json.subscript a_record "sourcingMarkupPrice"
     = Ok (JNum 0x1.2a305532617c2p-6)
  /\ Json.subscript a_record "energyTaxPrice"
     = Ok (JNum 0x1.3851eb851eb85p-3)
  /\ Price.__init__ Reference.iso_parse a_record
     = Ok (mk_Price (mk_datetime Examples.day0 0)
             (mk_datetime (Examples.day0 + Datetime.HOUR) 0)
             0x1.999999999999ap-4 0x1.5810624dd2f1bp-6
             0x1.2a305532617c2p-6 0x1.3851eb851eb85p-3).
Proof.
  split; [reflexivity|]. split; [reflexivity|]. split; [reflexivity|].
  split; [reflexivity|].
  apply (proj2 (price_of_record Reference.iso_parse a_record _ _ _ _
                  eq_refl eq_refl eq_refl eq_refl _)).
  exists (JStr "2023-01-01T00:00:00.000Z"), (JStr "2023-01-01T01:00:00.000Z").
  repeat split; reflexivity.
Defined.
